(** * Volume and mute control: a model of the three Windows audio utilities

    The repository holds three Python programs that drive the default audio
    endpoint through pycaw's [IAudioEndpointVolume]:

    - [masterAudioContolKivy.py]: a Kivy widget with a slider, arrow keys and
      a mute button for the speakers, polled every 0.25 s;
    - [teams3mute.py]: global hotkeys for the microphone;
    - [teams3micKivy.py]: the same hotkeys plus a Kivy display that polls a
      cached interface every 0.2 s.

    Python floats are IEEE binary64 numbers and are modelled by Rocq's
    primitive floats, so every concrete run below computes with the very
    numbers the interpreter would produce.  Exceptions are modelled by a
    state-and-error monad in which a raised exception keeps the state
    reached so far, as in Python.

    The audio device is the one external collaborator.  It is a record that
    stores the scalar level and the mute flag it was last given; a call on it
    raises when the method is marked faulty, or when the interface pointer
    used for the call was activated on an earlier generation of the endpoint.
    Changes made from outside the programs replace that record between two
    operations.

    Kivy and the keyboard library are outside the repository.  The
    properties of a widget are fields of a record and every method is
    embedded as it is written.  An assignment to a Kivy property follows
    the framework's rule: a value that compares equal to the stored one is
    dropped, any other value is stored and handed to the observers the
    constructor bound to the property, in the order of the [bind] calls.
    For the master-volume widget this is the chain from [volume_scalar] to
    the slider and back into [update_volume_from_gui].  A hotkey is a call
    of its handler; the threads handlers run on are left out. *)

From Stdlib Require Import Floats ZArith Bool List String Ascii DecimalString Lia.
Import ListNotations.

Set Warnings "-inexact-float".
Open Scope string_scope.

(** ** Python values and builtins *)

Module Py.

(** [min(a, b)]: the builtin keeps its first argument unless a later one
    compares strictly smaller. *)
Definition min (a b : float) : float :=
  if (b <? a)%float then b else a.

(** [max(a, b)]: the builtin keeps its first argument unless a later one
    compares strictly greater. *)
Definition max (a b : float) : float :=
  if (a <? b)%float then b else a.

(** [a > b] on floats. *)
Definition gt (a b : float) : bool := (b <? a)%float.

(** [a <= b] on floats. *)
Definition le (a b : float) : bool := (a <=? b)%float.

(** [a == b] on floats: a NaN equals nothing, itself included, and the two
    zeros are equal. *)
Definition eq (a b : float) : bool := (a =? b)%float.

(** [a != b] on bools. *)
Definition ne_bool (a b : bool) : bool := negb (Bool.eqb a b).

(** [bool(n)] for an integer. *)
Definition bool_of_int (n : Z) : bool := negb (n =? 0)%Z.

(** [str(n)] for an integer. *)
Definition str_int (n : Z) : string :=
  match n with
  | Z0 => "0"
  | Zpos p => NilZero.string_of_uint (Pos.to_uint p)
  | Zneg p => "-" ++ NilZero.string_of_uint (Pos.to_uint p)
  end.

(** The integer nearest to [m * 2^e], ties going to the even one. *)
Definition nearest_even (m : positive) (e : Z) : Z :=
  if (0 <=? e)%Z then (Zpos m * 2 ^ e)%Z
  else
    let d := (2 ^ (- e))%Z in
    let q := (Zpos m / d)%Z in
    let r := (Zpos m mod d)%Z in
    if (2 * r <? d)%Z then q
    else if (d <? 2 * r)%Z then (q + 1)%Z
    else if Z.even q then q else (q + 1)%Z.


(** [f"{x:.0f}"]: the decimal digits of the nearest integer (ties to
    even), with the sign of [x] kept even when the digits are [0]. *)
Definition format_0f (x : float) : string :=
  match Prim2SF x with
  | S754_zero s => if s then "-0" else "0"
  | S754_finite s m e =>
      (if s then "-" else "") ++ str_int (nearest_even m e)
  | S754_infinity s => if s then "-inf" else "inf"
  | S754_nan => "nan"
  end.

(** [s.lower()] on ASCII text. *)
Definition lower_ascii (c : ascii) : ascii :=
  let n := nat_of_ascii c in
  if ((65 <=? n) && (n <=? 90))%nat then ascii_of_nat (n + 32) else c.

Fixpoint lower (s : string) : string :=
  match s with
  | EmptyString => EmptyString
  | String c r => String (lower_ascii c) (lower r)
  end.

End Py.

(** ** Exceptions and state *)

Inductive exn : Type := Exception (msg : string).

Definition str_exn (e : exn) : string := let 'Exception msg := e in msg.

Inductive result (A : Type) : Type :=
| Ok (a : A)
| Raise (e : exn).
Arguments Ok {A} a.
Arguments Raise {A} e.

(** A computation over a mutable state [S]: it ends with a value or with a
    raised exception, and in both cases with the state it has reached. *)
Definition M (S A : Type) : Type := S -> result A * S.

Definition ret {S A} (a : A) : M S A := fun s => (Ok a, s).

Definition bind {S A B} (m : M S A) (k : A -> M S B) : M S B :=
  fun s => match m s with
           | (Ok a, s') => k a s'
           | (Raise e, s') => (Raise e, s')
           end.

Definition raise {S A} (e : exn) : M S A := fun s => (Raise e, s).

Definition gets {S A} (f : S -> A) : M S A := fun s => (Ok (f s), s).

Definition modify {S} (f : S -> S) : M S unit := fun s => (Ok tt, f s).

(** [try: body / except Exception as e: handler e]. *)
Definition try_except {S A} (body : M S A) (handler : exn -> M S A) : M S A :=
  fun s => match body s with
           | (Ok a, s') => (Ok a, s')
           | (Raise e, s') => handler e s'
           end.

(** [try: body / finally: cleanup]. *)
Definition try_finally {S A} (body : M S A) (cleanup : M S unit) : M S A :=
  fun s => match body s with
           | (r, s') =>
               match cleanup s' with
               | (Ok _, s'') => (r, s'')
               | (Raise e, s'') => (Raise e, s'')
               end
           end.

(** Run a computation on a component of a larger state. *)
Definition zoom {S T A} (proj : T -> S) (upd : S -> T -> T) (m : M S A) : M T A :=
  fun t => match m (proj t) with (r, s') => (r, upd s' t) end.

Declare Scope py_scope.
Delimit Scope py_scope with py.
Notation "x <- c1 ;; c2" := (bind c1 (fun x => c2))
  (at level 61, c1 at next level, right associativity) : py_scope.
Notation "c1 ;; c2" := (bind c1 (fun _ => c2))
  (at level 61, right associativity) : py_scope.
Open Scope py_scope.

(** A computation returns normally. *)
Definition returns {S A} (m : M S A) (s : S) : Prop :=
  exists a, fst (m s) = Ok a.

(** The state a computation ends in. *)
Definition exec {S A} (m : M S A) (s : S) : S := snd (m s).

(** The value of a computation, if it returned one. *)
Definition eval {S A} (m : M S A) (s : S) : option A :=
  match fst (m s) with Ok a => Some a | Raise _ => None end.

(** ** The audio endpoint *)

Inductive Method : Type :=
| mCreateObject
| mActivate
| mGetMasterVolumeLevelScalar
| mSetMasterVolumeLevelScalar
| mGetMute
| mSetMute.

(** An interface pointer names the device generation it was activated on. *)
Definition Handle : Type := nat.

Record Device : Type := mkDevice {
  level : float;                     (* scalar volume held by the device *)
  muted : bool;                      (* mute flag held by the device *)
  generation : nat;                  (* bumps when the endpoint is replaced *)
  fault : Method -> option string    (* methods that currently raise *)
}.

Definition with_level (v : float) (d : Device) : Device :=
  mkDevice v (muted d) (generation d) (fault d).

Definition with_muted (b : bool) (d : Device) : Device :=
  mkDevice (level d) b (generation d) (fault d).

Definition healthy : Method -> option string := fun _ => None.

Definition unavailable (msg : string) : Method -> option string :=
  fun _ => Some msg.

Module Endpoint.

(** Every call on an interface pointer first checks that the method is not
    faulty and that the pointer is the current one. *)
Definition guard (m : Method) (h : Handle) : M Device unit :=
  fun d =>
    match fault d m with
    | Some msg => (Raise (Exception msg), d)
    | None =>
        if Nat.eqb h (generation d) then (Ok tt, d)
        else (Raise (Exception "interface released"), d)
    end.

Definition CreateObject : M Device unit :=
  fun d =>
    match fault d mCreateObject with
    | Some msg => (Raise (Exception msg), d)
    | None => (Ok tt, d)
    end.

Definition Activate : M Device Handle :=
  fun d =>
    match fault d mActivate with
    | Some msg => (Raise (Exception msg), d)
    | None => (Ok (generation d), d)
    end.

Definition GetMasterVolumeLevelScalar (h : Handle) : M Device float :=
  guard mGetMasterVolumeLevelScalar h ;; gets level.

Definition SetMasterVolumeLevelScalar (h : Handle) (v : float) : M Device unit :=
  guard mSetMasterVolumeLevelScalar h ;; modify (with_level v).

Definition GetMute (h : Handle) : M Device Z :=
  guard mGetMute h ;; gets (fun d => if muted d then 1%Z else 0%Z).

Definition SetMute (h : Handle) (mute : Z) : M Device unit :=
  guard mSetMute h ;; modify (with_muted (Py.bool_of_int mute)).

End Endpoint.

(** ** masterAudioContolKivy.py *)

Module MasterAudio.

(** [VOLUME_STEP = 0.05] *)
Definition VOLUME_STEP : float := 0.05%float.

(** What [get_volume_interface] hands out: the endpoint's interface or an
    instance of the local class [MockVolume]. *)
Inductive VolumeInterface : Type :=
| EndpointVolume (h : Handle)
| MockVolume.

(** Method dispatch on the interface object. *)
Definition GetMasterVolumeLevelScalar (i : VolumeInterface) : M Device float :=
  match i with
  | EndpointVolume h => Endpoint.GetMasterVolumeLevelScalar h
  | MockVolume => ret 0.5%float
  end.

Definition SetMasterVolumeLevelScalar (i : VolumeInterface) (v : float) : M Device unit :=
  match i with
  | EndpointVolume h => Endpoint.SetMasterVolumeLevelScalar h v
  | MockVolume => ret tt
  end.

Definition GetMute (i : VolumeInterface) : M Device Z :=
  match i with
  | EndpointVolume h => Endpoint.GetMute h
  | MockVolume => ret 0%Z
  end.

Definition SetMute (i : VolumeInterface) (mute : Z) : M Device unit :=
  match i with
  | EndpointVolume h => Endpoint.SetMute h mute
  | MockVolume => ret tt
  end.

(** Module-level state: the global [VOLUME_INTERFACE], the speakers and
    what has been printed. *)
Record Env : Type := mkEnv {
  VOLUME_INTERFACE : VolumeInterface;
  device : Device;
  stdout : list string
}.

Definition on_device {A} (m : M Device A) : M Env A :=
  zoom device (fun d e => mkEnv (VOLUME_INTERFACE e) d (stdout e)) m.

Definition print (line : string) : M Env unit :=
  modify (fun e => mkEnv (VOLUME_INTERFACE e) (device e) (stdout e ++ [line])%list).

(** [get_volume_interface()], run once at import time, before the global
    exists: it works on the device and the console alone. *)
Definition get_volume_interface : M (Device * list string) VolumeInterface :=
  try_except
    (h <- zoom fst (fun d s => (d, snd s)) Endpoint.Activate ;;
     ret (EndpointVolume h))
    (fun e =>
       modify (fun s => (fst s, (snd s ++ [("Error accessing audio device: " ++ str_exn e)%string])%list)) ;;
       ret MockVolume).

Definition get_current_volume_scalar : M Env float :=
  try_except
    (i <- gets VOLUME_INTERFACE ;; on_device (GetMasterVolumeLevelScalar i))
    (fun _ => ret 0.0%float).

Definition set_volume_scalar (level_scalar : float) : M Env unit :=
  try_except
    (i <- gets VOLUME_INTERFACE ;;
     on_device (SetMasterVolumeLevelScalar i level_scalar))
    (fun e => print ("Error setting volume: " ++ str_exn e)).

Definition get_mute_status : M Env bool :=
  try_except
    (i <- gets VOLUME_INTERFACE ;;
     m <- on_device (GetMute i) ;;
     ret (m =? 1)%Z)
    (fun _ => ret false).

Definition set_mute_status (is_muted : bool) : M Env unit :=
  try_except
    (i <- gets VOLUME_INTERFACE ;;
     on_device (SetMute i (if is_muted then 1%Z else 0%Z)))
    (fun e => print ("Error setting mute: " ++ str_exn e)).

(** The properties of [VolumeControlWidget], the value of its slider and
    the two attributes of its mute button that the methods write.  The two
    [Label]s only copy [volume_label_text] and [status_text] (lines 90 and
    113) and have no field of their own. *)
Record VolumeControlWidget : Type := mkWidget {
  volume_scalar : float;
  is_muted : bool;
  volume_label_text : string;
  status_text : string;
  volume_slider_value : float;
  mute_button_text : string;
  mute_button_background_color : float * float * float * float
}.

(** The running program: module state and the widget [self]. *)
Record App : Type := mkApp {
  env : Env;
  self : VolumeControlWidget
}.

Definition io {A} (m : M Env A) : M App A :=
  zoom env (fun e a => mkApp e (self a)) m.

Definition on_self (f : VolumeControlWidget -> VolumeControlWidget) : M App unit :=
  modify (fun a => mkApp (env a) (f (self a))).

(** Plain stores into the fields. *)
Definition store_volume_scalar (v : float) : M App unit :=
  on_self (fun w => mkWidget v (is_muted w) (volume_label_text w) (status_text w)
                      (volume_slider_value w)
                      (mute_button_text w) (mute_button_background_color w)).

Definition store_is_muted (b : bool) : M App unit :=
  on_self (fun w => mkWidget (volume_scalar w) b (volume_label_text w) (status_text w)
                      (volume_slider_value w)
                      (mute_button_text w) (mute_button_background_color w)).

Definition store_slider_value (v : float) : M App unit :=
  on_self (fun w => mkWidget (volume_scalar w) (is_muted w) (volume_label_text w)
                      (status_text w) v
                      (mute_button_text w) (mute_button_background_color w)).

(** [self.volume_label_text = t] and [self.status_text = t]: their only
    observers copy the text into a label, so storing an equal text and
    dropping it give the same state. *)
Definition assign_volume_label_text (t : string) : M App unit :=
  on_self (fun w => mkWidget (volume_scalar w) (is_muted w) t (status_text w)
                      (volume_slider_value w)
                      (mute_button_text w) (mute_button_background_color w)).

Definition assign_status_text (t : string) : M App unit :=
  on_self (fun w => mkWidget (volume_scalar w) (is_muted w) (volume_label_text w) t
                      (volume_slider_value w)
                      (mute_button_text w) (mute_button_background_color w)).

Definition assign_mute_button (t : string) (c : float * float * float * float) : M App unit :=
  on_self (fun w => mkWidget (volume_scalar w) (is_muted w) (volume_label_text w)
                      (status_text w) (volume_slider_value w) t c).

Definition update_label (value : float) : M App unit :=
  assign_volume_label_text ("Volume: " ++ Py.format_0f (value * 100)%float ++ "%").

Definition update_gui_on_mute (is_muted : bool) : M App unit :=
  if is_muted then
    assign_mute_button "Unmute (Muted)" (0.8, 0.2, 0.2, 1)%float
  else
    assign_mute_button "Mute (M)" (0.2, 0.8, 0.2, 1)%float.

(** [self.is_muted = b]: a changed flag is stored and handed to
    [update_gui_on_mute], the observer bound at line 118. *)
Definition assign_is_muted (b : bool) : M App unit :=
  cur <- gets (fun a => is_muted (self a)) ;;
  if Bool.eqb cur b then ret tt
  else store_is_muted b ;; update_gui_on_mute b.

(** [self.volume_slider.value = v]: a changed value is stored and handed to
    the observer bound at line 98. *)
Definition assign_slider_value (observer : float -> M App unit) (v : float) : M App unit :=
  cur <- gets (fun a => volume_slider_value (self a)) ;;
  if Py.eq cur v then ret tt
  else store_slider_value v ;; observer v.

(** [self.volume_scalar = v]: a changed value is stored and handed first to
    the slider's setter (bound at line 102), then to [update_label] (bound
    at line 117). *)
Definition assign_volume_scalar_with (slider_observer : float -> M App unit) (v : float)
  : M App unit :=
  cur <- gets (fun a => volume_scalar (self a)) ;;
  if Py.eq cur v then ret tt
  else
    store_volume_scalar v ;;
    assign_slider_value slider_observer v ;;
    update_label v.

(** The interpreter's limit on nested calls, [sys.getrecursionlimit()]. *)
Definition recursion_limit : nat := 1000.

(** [update_volume_from_gui] is the slider's observer and assigns
    [volume_scalar], whose observer sets the slider: the two call each
    other as long as the value differs from the stored one.  [depth] is the
    number of nested rounds the interpreter still allows; when none is left
    it raises [RecursionError].  A round takes more than one frame of the
    interpreter's stack, so the interpreter gives up after fewer rounds
    than the model; for a value that is a number the chain ends within two
    rounds, and for any other value it never ends. *)
Fixpoint update_volume_from_gui_at (depth : nat) (value : float) : M App unit :=
  match depth with
  | O => raise (Exception "maximum recursion depth exceeded")
  | S depth' =>
      io (set_volume_scalar value) ;;
      assign_volume_scalar_with (update_volume_from_gui_at depth') value ;;
      assign_status_text ("Volume set via Slider: " ++ Py.format_0f (value * 100)%float ++ "%")
  end.

Definition update_volume_from_gui (value : float) : M App unit :=
  update_volume_from_gui_at recursion_limit value.

Definition assign_volume_scalar (v : float) : M App unit :=
  assign_volume_scalar_with update_volume_from_gui v.

Definition update_volume_from_key (change_scalar : float) : M App unit :=
  current_scalar <- gets (fun a => volume_scalar (self a)) ;;
  let new_scalar := Py.max 0.0%float (Py.min 1.0%float (current_scalar + change_scalar)%float) in
  io (set_volume_scalar new_scalar) ;;
  assign_volume_scalar new_scalar ;;
  assign_status_text ("Volume set via Keyboard: " ++ Py.format_0f (new_scalar * 100)%float ++ "%").

Definition toggle_mute : M App unit :=
  cur <- gets (fun a => is_muted (self a)) ;;
  let new_mute_status := negb cur in
  io (set_mute_status new_mute_status) ;;
  assign_is_muted new_mute_status ;;
  assign_status_text ("Mute Toggled: " ++ (if new_mute_status then "Muted" else "Unmuted")).

(** [key_press]: [codepoint] is the typed text, or [None]. *)
Definition key_press (keycode : Z) (codepoint : option string) : M App bool :=
  if (keycode =? 273)%Z then
    update_volume_from_key VOLUME_STEP ;; ret true
  else if (keycode =? 274)%Z then
    update_volume_from_key (- VOLUME_STEP)%float ;; ret true
  else
    match codepoint with
    | Some (String _ _ as c) =>
        if String.eqb (Py.lower c) "m" then toggle_mute ;; ret true
        else ret false
    | _ => ret false
    end.

Definition check_external_change : M App unit :=
  current_external_scalar <- io get_current_volume_scalar ;;
  current_external_mute <- io get_mute_status ;;
  cached <- gets (fun a => volume_scalar (self a)) ;;
  (if Py.gt (abs (cached - current_external_scalar))%float 0.005%float then
     assign_volume_scalar current_external_scalar ;;
     assign_status_text "Volume changed externally!"
   else ret tt) ;;
  cached_mute <- gets (fun a => is_muted (self a)) ;;
  (if Py.ne_bool cached_mute current_external_mute then
     assign_is_muted current_external_mute
   else ret tt).

(** The class body of [VolumeControlWidget] reads the backend for the
    property defaults (lines 77 to 79); [__init__] gives the slider the
    value of [volume_scalar] and builds the mute button, whose colour is
    Kivy's default. *)
Definition new_widget : M Env VolumeControlWidget :=
  v <- get_current_volume_scalar ;;
  m <- get_mute_status ;;
  v' <- get_current_volume_scalar ;;
  ret (mkWidget v m
         ("Volume: " ++ Py.format_0f (v' * 100)%float ++ "%")
         "Use Up/Down Arrows to adjust volume. Press 'M' to mute."
         v "Mute (M)" (1, 1, 1, 1)%float).

(** Program start: the module body binds [VOLUME_INTERFACE] (line 41), then
    the widget is built.  An exception raised on the way ends the program
    before there is a widget. *)
Definition load (d : Device) : result App :=
  match get_volume_interface (d, []) with
  | (Raise e, _) => Raise e
  | (Ok i, (d1, out1)) =>
      match new_widget (mkEnv i d1 out1) with
      | (Raise e, _) => Raise e
      | (Ok w, e1) => Ok (mkApp e1 w)
      end
  end.

(** What is left when the program ended at start-up: no interface that
    reaches the device and an empty widget. *)
Definition not_started (d : Device) : App :=
  mkApp (mkEnv MockVolume d [])
    (mkWidget 0%float false "" "" 0%float "" (0, 0, 0, 0)%float).

(** The running program [load] returns. *)
Definition startup (d : Device) : App :=
  match load d with
  | Ok a => a
  | Raise _ => not_started d
  end.

(** The commands a user or the clock can issue to the running widget.  A
    slider event is the slider taking a value, which runs its observer
    [update_volume_from_gui]. *)
Inductive Command : Type :=
| Slider (value : float)
| Key (keycode : Z) (codepoint : option string)
| MuteButton
| Tick.

Definition run (c : Command) : M App unit :=
  match c with
  | Slider value => assign_slider_value update_volume_from_gui value
  | Key keycode codepoint => key_press keycode codepoint ;; ret tt
  | MuteButton => toggle_mute
  | Tick => check_external_change
  end.

(** [update_volume_from_key(change)] issued [n] times in a row, keeping
    the cached level seen after each one. *)
Fixpoint key_trace (n : nat) (change : float) (a : App) : list float * App :=
  match n with
  | O => ([], a)
  | S k =>
      let a' := exec (update_volume_from_key change) a in
      let '(l, a'') := key_trace k change a' in
      (volume_scalar (self a') :: l, a'')
  end.

End MasterAudio.

(** ** teams3mute.py *)

Module Teams3Mute.

Definition STEP_PERCENT : float := 5.0%float.

(** The microphone, the COM initialisation depth of the running thread and
    the two output streams. *)
Record World : Type := mkWorld {
  mic : Device;
  com_depth : nat;
  stdout : list string;
  stderr : list string
}.

Definition on_mic {A} (m : M Device A) : M World A :=
  zoom mic (fun d w => mkWorld d (com_depth w) (stdout w) (stderr w)) m.

Definition print (line : string) : M World unit :=
  modify (fun w => mkWorld (mic w) (com_depth w) (stdout w ++ [line])%list (stderr w)).

Definition print_stderr (line : string) : M World unit :=
  modify (fun w => mkWorld (mic w) (com_depth w) (stdout w) (stderr w ++ [line])%list).

Definition CoInitialize : M World unit :=
  modify (fun w => mkWorld (mic w) (S (com_depth w)) (stdout w) (stderr w)).

Definition CoUninitialize : M World unit :=
  modify (fun w => mkWorld (mic w) (Nat.pred (com_depth w)) (stdout w) (stderr w)).

(** Creation by ProgID, and by CLSID when that raises. *)
Definition _create_mmdevice_enumerator : M World unit :=
  try_except (on_mic Endpoint.CreateObject) (fun _ => on_mic Endpoint.CreateObject).

(** [GetDefaultAudioEndpoint] and [Activate] are one step of the device. *)
Definition _get_volume_interface_for_default : M World Handle :=
  _create_mmdevice_enumerator ;;
  on_mic Endpoint.Activate.

Definition _percent_to_scalar (p : float) : float :=
  Py.max 0.0%float (Py.min 1.0%float (p / 100.0)%float).

Definition _scalar_to_percent (s : float) : float :=
  Py.max 0.0%float (Py.min 100.0%float (s * 100.0)%float).

(** The decorator [ensure_com]: the wrapped handler returns [None] whether
    or not the body raised; the traceback it prints is cut down to the
    message of the exception. *)
Definition ensure_com (func : M World unit) : M World unit :=
  CoInitialize ;;
  try_finally
    (try_except func
       (fun e => print_stderr "Exception in handler:" ;; print_stderr (str_exn e)))
    (try_except CoUninitialize (fun _ => ret tt)).

Definition increase_volume : M World unit :=
  ensure_com
    (vol <- _get_volume_interface_for_default ;;
     cur <- on_mic (Endpoint.GetMasterVolumeLevelScalar vol) ;;
     let cur_pct := _scalar_to_percent cur in
     let new_pct := Py.min 100.0%float (cur_pct + STEP_PERCENT)%float in
     on_mic (Endpoint.SetMasterVolumeLevelScalar vol (_percent_to_scalar new_pct)) ;;
     print ("[+] Mic volume -> " ++ Py.format_0f new_pct ++ "%")).

Definition decrease_volume : M World unit :=
  ensure_com
    (vol <- _get_volume_interface_for_default ;;
     cur <- on_mic (Endpoint.GetMasterVolumeLevelScalar vol) ;;
     let cur_pct := _scalar_to_percent cur in
     let new_pct := Py.max 0.0%float (cur_pct - STEP_PERCENT)%float in
     on_mic (Endpoint.SetMasterVolumeLevelScalar vol (_percent_to_scalar new_pct)) ;;
     print ("[-] Mic volume -> " ++ Py.format_0f new_pct ++ "%")).

Definition toggle_mute : M World unit :=
  ensure_com
    (vol <- _get_volume_interface_for_default ;;
     m <- on_mic (Endpoint.GetMute vol) ;;
     let cur_mute := Py.bool_of_int m in
     let new_mute := negb cur_mute in
     on_mic (Endpoint.SetMute vol (if new_mute then 1%Z else 0%Z)) ;;
     print ("[" ++ (if new_mute then "M" else "U") ++ "] Mic muted -> "
            ++ (if new_mute then "True" else "False"))).

(** [increase_volume()] issued [n] times in a row, keeping the device level
    seen after each one. *)
Fixpoint increase_trace (n : nat) (w : World) : list float * World :=
  match n with
  | O => ([], w)
  | S k =>
      let w' := exec increase_volume w in
      let '(l, w'') := increase_trace k w' in
      (level (mic w') :: l, w'')
  end.

End Teams3Mute.

(** ** teams3micKivy.py *)

Module Teams3MicKivy.

Definition STEP_PERCENT : float := 5.0%float.

(** The widgets of [MicController] that [update_ui] writes. *)
Record MicController : Type := mkLayout {
  vol_bar_value : float;
  status_lbl_text : string;
  status_lbl_color : float * float * float * float;
  vol_text_lbl_text : string
}.

(** [MicApp] with the microphone it talks to. *)
Record MicApp : Type := mkMicApp {
  mic : Device;
  com_depth : nat;
  stdout : list string;
  cached_interface : option Handle;
  layout : MicController
}.

Definition on_mic {A} (m : M Device A) : M MicApp A :=
  zoom mic (fun d a => mkMicApp d (com_depth a) (stdout a) (cached_interface a) (layout a)) m.

Definition print (line : string) : M MicApp unit :=
  modify (fun a => mkMicApp (mic a) (com_depth a) (stdout a ++ [line])%list
                     (cached_interface a) (layout a)).

Definition CoInitialize : M MicApp unit :=
  modify (fun a => mkMicApp (mic a) (S (com_depth a)) (stdout a) (cached_interface a) (layout a)).

Definition CoUninitialize : M MicApp unit :=
  modify (fun a => mkMicApp (mic a) (Nat.pred (com_depth a)) (stdout a)
                     (cached_interface a) (layout a)).

Definition assign_cached_interface (c : option Handle) : M MicApp unit :=
  modify (fun a => mkMicApp (mic a) (com_depth a) (stdout a) c (layout a)).

Definition assign_layout (l : MicController) : M MicApp unit :=
  modify (fun a => mkMicApp (mic a) (com_depth a) (stdout a) (cached_interface a) l).

Definition _create_mmdevice_enumerator : M MicApp unit :=
  try_except (on_mic Endpoint.CreateObject) (fun _ => on_mic Endpoint.CreateObject).

Definition _get_new_interface : M MicApp Handle :=
  _create_mmdevice_enumerator ;;
  on_mic Endpoint.Activate.

Definition _scalar_to_percent (s : float) : float :=
  Py.max 0.0%float (Py.min 100.0%float (s * 100.0)%float).

Definition _percent_to_scalar (p : float) : float :=
  Py.max 0.0%float (Py.min 1.0%float (p / 100.0)%float).

(** The decorator [safe_hotkey_execution]. *)
Definition safe_hotkey_execution (func : Handle -> M MicApp unit) : M MicApp unit :=
  try_finally
    (try_except
       (CoInitialize ;;
        vol <- _get_new_interface ;;
        func vol)
       (fun e => print ("Hotkey Error: " ++ str_exn e)))
    CoUninitialize.

Definition increase_volume : M MicApp unit :=
  safe_hotkey_execution (fun vol =>
    cur <- on_mic (Endpoint.GetMasterVolumeLevelScalar vol) ;;
    let new_pct := Py.min 100.0%float (_scalar_to_percent cur + STEP_PERCENT)%float in
    on_mic (Endpoint.SetMasterVolumeLevelScalar vol (_percent_to_scalar new_pct)) ;;
    print ("[Hotkey] Vol Up -> " ++ Py.format_0f new_pct ++ "%")).

Definition decrease_volume : M MicApp unit :=
  safe_hotkey_execution (fun vol =>
    cur <- on_mic (Endpoint.GetMasterVolumeLevelScalar vol) ;;
    let new_pct := Py.max 0.0%float (_scalar_to_percent cur - STEP_PERCENT)%float in
    on_mic (Endpoint.SetMasterVolumeLevelScalar vol (_percent_to_scalar new_pct)) ;;
    print ("[Hotkey] Vol Down -> " ++ Py.format_0f new_pct ++ "%")).

Definition toggle_mute : M MicApp unit :=
  safe_hotkey_execution (fun vol =>
    m <- on_mic (Endpoint.GetMute vol) ;;
    let new_mute := negb (Py.bool_of_int m) in
    on_mic (Endpoint.SetMute vol (if new_mute then 1%Z else 0%Z)) ;;
    print ("[Hotkey] Mute -> " ++ (if new_mute then "True" else "False"))).

Definition update_ui (vol_pct : float) (is_muted : bool) : M MicApp unit :=
  if is_muted then
    assign_layout (mkLayout vol_pct "MUTED" (1, 0.3, 0.3, 1)%float "Microphone is Inactive")
  else
    assign_layout (mkLayout vol_pct (Py.format_0f vol_pct ++ "%")
                     (0.3, 0.6, 1.0, 1)%float "Microphone Active").

(** The widget tree as the KV rules build it. *)
Definition initial_layout : MicController :=
  mkLayout 0%float "--" (0.3, 0.6, 1.0, 1)%float "Initializing...".

Definition on_start : M MicApp unit :=
  print "App Starting..." ;;
  CoInitialize ;;
  try_except
    (h <- _get_new_interface ;;
     assign_cached_interface (Some h) ;;
     print "Audio Interface Connected Successfully.")
    (fun e =>
       print ("Error connecting to audio: " ++ str_exn e) ;;
       assign_cached_interface None).

Definition on_stop : M MicApp unit :=
  print "App Stopping..." ;;
  assign_cached_interface None ;;
  CoUninitialize.

Definition check_mic_status : M MicApp unit :=
  c <- gets cached_interface ;;
  match c with
  | None => ret tt
  | Some vol =>
      try_except
        (s <- on_mic (Endpoint.GetMasterVolumeLevelScalar vol) ;;
         let current_vol := _scalar_to_percent s in
         m <- on_mic (Endpoint.GetMute vol) ;;
         let current_mute := Py.bool_of_int m in
         update_ui current_vol current_mute)
        (fun _ =>
           try_except
             (h <- _get_new_interface ;; assign_cached_interface (Some h))
             (fun _ => ret tt))
  end.

(** The process right after launch, before [on_start] runs. *)
Definition launch (d : Device) : MicApp :=
  mkMicApp d 0 [] None initial_layout.


End Teams3MicKivy.

(** ** teams3mute.py: hotkey registration and the main block *)

Module Teams3MuteMain.

(** The callbacks the script hands to the keyboard library. *)
Inductive Callback : Type :=
| cb_increase_volume
| cb_decrease_volume
| cb_toggle_mute
| cb_quit_program.

(** What reaches the waiting main thread: a key combination was pressed, or
    the user interrupted the process. *)
Inductive Event : Type :=
| Press (combo : string)
| KeyboardInterrupt.

(** The running script: the world of the handlers, the registrations the
    keyboard library holds (in registration order), [stop_event], and
    whether the library's [unhook_all_hotkeys] currently raises. *)
Record Process : Type := mkProcess {
  world : Teams3Mute.World;
  hotkeys : list (string * Callback);
  stop_event : bool;
  unhook_fault : option string
}.

Definition in_world {A} (m : M Teams3Mute.World A) : M Process A :=
  zoom world (fun w p => mkProcess w (hotkeys p) (stop_event p) (unhook_fault p)) m.

Definition print (line : string) : M Process unit :=
  in_world (Teams3Mute.print line).

(** [keyboard.unhook_all_hotkeys()] *)
Definition unhook_all_hotkeys : M Process unit :=
  fun p =>
    match unhook_fault p with
    | Some msg => (Raise (Exception msg), p)
    | None => (Ok tt, mkProcess (world p) [] (stop_event p) (unhook_fault p))
    end.

(** [keyboard.add_hotkey(combo, callback)] *)
Definition add_hotkey (combo : string) (cb : Callback) : M Process unit :=
  modify (fun p => mkProcess (world p) (hotkeys p ++ [(combo, cb)])%list
                     (stop_event p) (unhook_fault p)).

(** [stop_event.set()] *)
Definition stop_event_set : M Process unit :=
  modify (fun p => mkProcess (world p) (hotkeys p) true (unhook_fault p)).

Definition quit_program : M Process unit :=
  print "Stopping hotkeys (quit requested)..." ;;
  try_except unhook_all_hotkeys (fun _ => ret tt) ;;
  stop_event_set.

Definition register_hotkeys : M Process unit :=
  try_except unhook_all_hotkeys (fun _ => ret tt) ;;
  add_hotkey "ctrl+alt+up" cb_increase_volume ;;
  add_hotkey "ctrl+alt+down" cb_decrease_volume ;;
  add_hotkey "ctrl+alt+m" cb_toggle_mute ;;
  add_hotkey "ctrl+alt+q" cb_quit_program.

(** Calling a registered callback. *)
Definition call (cb : Callback) : M Process unit :=
  match cb with
  | cb_increase_volume => in_world Teams3Mute.increase_volume
  | cb_decrease_volume => in_world Teams3Mute.decrease_volume
  | cb_toggle_mute => in_world Teams3Mute.toggle_mute
  | cb_quit_program => quit_program
  end.

Fixpoint call_all (cbs : list Callback) : M Process unit :=
  match cbs with
  | [] => ret tt
  | cb :: rest => call cb ;; call_all rest
  end.

(** The library fires every registration of the pressed combination, in
    registration order. *)
Definition press (combo : string) : M Process unit :=
  hs <- gets hotkeys ;;
  call_all (map snd (filter (fun h => String.eqb (fst h) combo) hs)).

(** The loop [while not stop_event.wait(timeout=0.1): pass] with its
    [except KeyboardInterrupt] clause, fed with the events that arrive while
    it waits.  The result tells whether the loop was left; [false] means the
    events ran out and the script is still waiting. *)
Fixpoint wait_loop (events : list Event) : M Process bool :=
  stopped <- gets stop_event ;;
  if stopped then ret true
  else
    match events with
    | [] => ret false
    | Press combo :: rest => press combo ;; wait_loop rest
    | KeyboardInterrupt :: _ => print "Interrupted by user; exiting." ;; ret true
    end.

(** The first report of the main block, between [CoInitialize] and
    [CoUninitialize]. *)
Definition initial_report : M Teams3Mute.World unit :=
  Teams3Mute.CoInitialize ;;
  try_finally
    (try_except
       (vol <- Teams3Mute._get_volume_interface_for_default ;;
        s <- Teams3Mute.on_mic (Endpoint.GetMasterVolumeLevelScalar vol) ;;
        m <- Teams3Mute.on_mic (Endpoint.GetMute vol) ;;
        Teams3Mute.print
          ("Initial mic volume: " ++ Py.format_0f (Teams3Mute._scalar_to_percent s) ++ "%"
           ++ "  muted=" ++ (if Py.bool_of_int m then "True" else "False")))
       (fun e => Teams3Mute.print ("Could not read initial mic state: " ++ str_exn e)))
    Teams3Mute.CoUninitialize.

(** The block under [if __name__ == "__main__"].  The [finally] clause of
    the loop runs once the loop is left. *)
Definition main (events : list Event) : M Process bool :=
  print "Registering hotkeys..." ;;
  register_hotkeys ;;
  in_world initial_report ;;
  print "Hotkeys active. Press Ctrl+Alt+Up/Down to change mic, Ctrl+Alt+M to toggle mute, Ctrl+Alt+Q to quit." ;;
  left <- wait_loop events ;;
  if left then
    try_except unhook_all_hotkeys (fun _ => ret tt) ;;
    print "Exited mic hotkeys." ;;
    ret true
  else ret false.

(** The script as it is started: nothing registered, nothing printed. *)
Definition launch (d : Device) (unhook : option string) : Process :=
  mkProcess (Teams3Mute.mkWorld d 0 [] []) [] false unhook.

End Teams3MuteMain.

(** ** Vocabulary of the properties *)

(** A level lies in [[0.0, 1.0]], by Python's own comparisons. *)
Definition in_unit (v : float) : Prop :=
  Py.le 0.0%float v = true /\ Py.le v 1.0%float = true.

(** The sign bit of a float, as [math.copysign(1.0, x) < 0] reads it; a NaN
    counts as unsigned. *)
Definition sign_of (x : spec_float) : bool :=
  match x with
  | S754_zero s | S754_infinity s | S754_finite s _ _ => s
  | S754_nan => false
  end.

Definition signbit (x : float) : bool := sign_of (Prim2SF x).

(** A working endpoint at generation 0. *)
Definition endpoint (v : float) (m : bool) : Device := mkDevice v m 0 healthy.

(** An endpoint on which every call raises. *)
Definition broken (v : float) (m : bool) (msg : string) : Device :=
  mkDevice v m 0 (unavailable msg).

(** An endpoint whose level setter alone raises. *)
Definition write_protected (v : float) (m : bool) (msg : string) : Device :=
  mkDevice v m 0
    (fun k => match k with mSetMasterVolumeLevelScalar => Some msg | _ => None end).

(** Every method of the device works. *)
Definition works (d : Device) : Prop := forall k, fault d k = None.

(** The level and mute flag the widget holds, and the level the speakers hold. *)
Definition cached_level (a : MasterAudio.App) : float :=
  MasterAudio.volume_scalar (MasterAudio.self a).

Definition cached_mute (a : MasterAudio.App) : bool :=
  MasterAudio.is_muted (MasterAudio.self a).

Definition backend_level (a : MasterAudio.App) : float :=
  level (MasterAudio.device (MasterAudio.env a)).

Definition backend_mute (a : MasterAudio.App) : bool :=
  muted (MasterAudio.device (MasterAudio.env a)).

(** The value the slider holds. *)
Definition slider_level (a : MasterAudio.App) : float :=
  MasterAudio.volume_slider_value (MasterAudio.self a).

(** A float that is a number, not a NaN: it equals itself. *)
Definition is_number (v : float) : Prop := Py.eq v v = true.

(** One of the two zeros. *)
Definition is_zero (x : float) : Prop := x = 0.0%float \/ x = (-0.0)%float.

(** Something outside the program puts the speakers in state [d]. *)
Definition external (d : Device) (a : MasterAudio.App) : MasterAudio.App :=
  MasterAudio.mkApp
    (MasterAudio.mkEnv (MasterAudio.VOLUME_INTERFACE (MasterAudio.env a)) d
       (MasterAudio.stdout (MasterAudio.env a)))
    (MasterAudio.self a).

(** The widget is talking to the live endpoint through a current pointer. *)
Definition connected (a : MasterAudio.App) : Prop :=
  MasterAudio.VOLUME_INTERFACE (MasterAudio.env a)
  = MasterAudio.EndpointVolume (generation (MasterAudio.device (MasterAudio.env a))).

(** A slider event carries a value of the slider's range [[0, 1]]; the other
    commands carry no level. *)
Definition command_in_range (c : MasterAudio.Command) : Prop :=
  match c with
  | MasterAudio.Slider value => in_unit value
  | _ => True
  end.

(** A slider event carries a number. *)
Definition command_defined (c : MasterAudio.Command) : Prop :=
  match c with
  | MasterAudio.Slider value => is_number value
  | _ => True
  end.

(** A sequence of commands. *)
Fixpoint run_all (cs : list MasterAudio.Command) : M MasterAudio.App unit :=
  match cs with
  | [] => ret tt
  | c :: rest => MasterAudio.run c ;; run_all rest
  end.

(** The clamp of the keyboard path, [max(0.0, min(1.0, x))]. *)
Definition clamp_unit (x : float) : float :=
  Py.max 0.0%float (Py.min 1.0%float x).

(** What [volume_scalar] holds after it was assigned [v] while holding
    [cur]: an equal value is dropped. *)
Definition assigned (cur v : float) : float :=
  if Py.eq cur v then cur else v.

(** The levels [n] keyboard steps of [change] go through from [v]. *)
Fixpoint key_levels (n : nat) (change v : float) : list float :=
  match n with
  | O => []
  | S k =>
      let v' := assigned v (clamp_unit (v + change)%float) in
      v' :: key_levels k change v'
  end.

(** The run of [update_volume_from_gui] the slider starts while
    [volume_scalar] already holds the value: it has nothing left to assign. *)
Definition echo_of_slider (value : float) : M MasterAudio.App unit :=
  MasterAudio.io (MasterAudio.set_volume_scalar value) ;;
  MasterAudio.assign_status_text
    ("Volume set via Slider: " ++ Py.format_0f (value * 100)%float ++ "%").

(** [update_volume_from_gui] with the chain of observers cut after that
    echo, where it ends for every value that is a number. *)
Definition update_volume_from_gui_once (value : float) : M MasterAudio.App unit :=
  MasterAudio.io (MasterAudio.set_volume_scalar value) ;;
  MasterAudio.assign_volume_scalar_with echo_of_slider value ;;
  MasterAudio.assign_status_text
    ("Volume set via Slider: " ++ Py.format_0f (value * 100)%float ++ "%").

(** The label shows the percent of the stored level. *)
Definition label_follows (a : MasterAudio.App) : Prop :=
  MasterAudio.volume_label_text (MasterAudio.self a)
  = "Volume: " ++ Py.format_0f (cached_level a * 100)%float ++ "%".

(** The mute button shows the cached flag. *)
Definition button_follows (a : MasterAudio.App) : Prop :=
  MasterAudio.mute_button_text (MasterAudio.self a)
  = (if cached_mute a then "Unmute (Muted)" else "Mute (M)") /\
  MasterAudio.mute_button_background_color (MasterAudio.self a)
  = (if cached_mute a then (0.8, 0.2, 0.2, 1) else (0.2, 0.8, 0.2, 1))%float.

(** The slider shows the stored level. *)
Definition slider_follows (a : MasterAudio.App) : Prop :=
  Py.eq (slider_level a) (cached_level a) = true.

(** The level one press of the volume-up hotkey writes when it reads [v]. *)
Definition hotkey_up (v : float) : float :=
  Teams3Mute._percent_to_scalar
    (Py.min 100.0%float (Teams3Mute._scalar_to_percent v + Teams3Mute.STEP_PERCENT)%float).

Definition hotkey_down (v : float) : float :=
  Teams3Mute._percent_to_scalar
    (Py.max 0.0%float (Teams3Mute._scalar_to_percent v - Teams3Mute.STEP_PERCENT)%float).

Fixpoint hotkey_levels (n : nat) (v : float) : list float :=
  match n with
  | O => []
  | S k => let v' := hotkey_up v in v' :: hotkey_levels k v'
  end.

(** Something outside the program changes the microphone level to [v]. *)
Definition mic_level_changed (v : float) (w : Teams3Mute.World) : Teams3Mute.World :=
  Teams3Mute.mkWorld (with_level v (Teams3Mute.mic w)) (Teams3Mute.com_depth w)
    (Teams3Mute.stdout w) (Teams3Mute.stderr w).

(** Something outside the program puts the microphone in state [d]. *)
Definition mic_external (d : Device) (a : Teams3MicKivy.MicApp) : Teams3MicKivy.MicApp :=
  Teams3MicKivy.mkMicApp d (Teams3MicKivy.com_depth a) (Teams3MicKivy.stdout a)
    (Teams3MicKivy.cached_interface a) (Teams3MicKivy.layout a).

(** What [update_ui] leaves on screen for a microphone at level [v]. *)
Definition shown (v : float) (m : bool) : Teams3MicKivy.MicController :=
  let pct := Teams3MicKivy._scalar_to_percent v in
  if m then
    Teams3MicKivy.mkLayout pct "MUTED" (1, 0.3, 0.3, 1)%float "Microphone is Inactive"
  else
    Teams3MicKivy.mkLayout pct (Py.format_0f pct ++ "%") (0.3, 0.6, 1.0, 1)%float
      "Microphone Active".

(** The widget with other texts on its labels. *)
Definition relabelled (label status : string) (a : MasterAudio.App) : MasterAudio.App :=
  let w := MasterAudio.self a in
  MasterAudio.mkApp (MasterAudio.env a)
    (MasterAudio.mkWidget (MasterAudio.volume_scalar w) (MasterAudio.is_muted w)
       label status (MasterAudio.volume_slider_value w)
       (MasterAudio.mute_button_text w)
       (MasterAudio.mute_button_background_color w)).

(** A percent lies in [[0.0, 100.0]], by Python's own comparisons. *)
Definition in_percent (v : float) : Prop :=
  Py.le 0.0%float v = true /\ Py.le v 100.0%float = true.

(** The registrations [register_hotkeys] asks for. *)
Definition four_bindings : list (string * Teams3MuteMain.Callback) :=
  [("ctrl+alt+up", Teams3MuteMain.cb_increase_volume);
   ("ctrl+alt+down", Teams3MuteMain.cb_decrease_volume);
   ("ctrl+alt+m", Teams3MuteMain.cb_toggle_mute);
   ("ctrl+alt+q", Teams3MuteMain.cb_quit_program)].

(** The hotkey script with its handlers' world replaced. *)
Definition with_world (w : Teams3Mute.World) (p : Teams3MuteMain.Process)
  : Teams3MuteMain.Process :=
  Teams3MuteMain.mkProcess w (Teams3MuteMain.hotkeys p) (Teams3MuteMain.stop_event p)
    (Teams3MuteMain.unhook_fault p).

(** The key typed is the letter M, in either case. *)
Definition mute_key (codepoint : option string) : bool :=
  match codepoint with
  | Some c => String.eqb (Py.lower c) "m"
  | None => false
  end.

(** An event that makes the main loop of the hotkey script end: the quit
    combination or an interrupt. *)
Definition ends_wait (e : Teams3MuteMain.Event) : bool :=
  match e with
  | Teams3MuteMain.Press combo => String.eqb "ctrl+alt+q" combo
  | Teams3MuteMain.KeyboardInterrupt => true
  end.

(** The last line printed, if any. *)
Definition last_line (out : list string) : option string :=
  match rev out with
  | [] => None
  | l :: _ => Some l
  end.

(** What holds between two events while the hotkey script waits: the COM
    depth is [depth]; as long as [stop_event] is clear the four bindings are
    registered; once it is set they are gone, if unhooking works. *)
Definition armed (depth : nat) (p : Teams3MuteMain.Process) : Prop :=
  Teams3Mute.com_depth (Teams3MuteMain.world p) = depth /\
  (Teams3MuteMain.stop_event p = false -> Teams3MuteMain.hotkeys p = four_bindings) /\
  (Teams3MuteMain.stop_event p = true -> Teams3MuteMain.unhook_fault p = None ->
   Teams3MuteMain.hotkeys p = []).

(** The hotkey script at the moment its main loop starts to wait. *)
Definition waiting (d : Device) (unhook : option string) : Teams3MuteMain.Process :=
  Teams3MuteMain.mkProcess
    (exec (Teams3Mute.print
             "Hotkeys active. Press Ctrl+Alt+Up/Down to change mic, Ctrl+Alt+M to toggle mute, Ctrl+Alt+Q to quit.")
       (exec Teams3MuteMain.initial_report
          (exec (Teams3Mute.print "Registering hotkeys...")
             (Teams3Mute.mkWorld d 0 [] []))))
    four_bindings false unhook.

(** The [finally] clause behind the main loop. *)
Definition cleaned_up (q : Teams3MuteMain.Process) : Teams3MuteMain.Process :=
  exec (try_except Teams3MuteMain.unhook_all_hotkeys (fun _ => ret tt) ;;
        Teams3MuteMain.print "Exited mic hotkeys.") q.

(** ** Proof automation *)

(** Unfold the monadic code of the master-volume program down to the
    comparisons and the backend tests it branches on. *)
Ltac master_red :=
  cbv beta iota zeta delta
    [ret bind raise gets modify try_except try_finally zoom exec eval fst snd
     Endpoint.guard Endpoint.CreateObject Endpoint.Activate
     Endpoint.GetMasterVolumeLevelScalar Endpoint.SetMasterVolumeLevelScalar
     Endpoint.GetMute Endpoint.SetMute
     MasterAudio.GetMasterVolumeLevelScalar MasterAudio.SetMasterVolumeLevelScalar
     MasterAudio.GetMute MasterAudio.SetMute MasterAudio.on_device MasterAudio.print
     MasterAudio.get_current_volume_scalar MasterAudio.set_volume_scalar
     MasterAudio.get_mute_status MasterAudio.set_mute_status
     MasterAudio.io MasterAudio.on_self MasterAudio.store_volume_scalar
     MasterAudio.store_is_muted MasterAudio.store_slider_value
     MasterAudio.assign_volume_scalar_with MasterAudio.assign_volume_scalar
     MasterAudio.assign_slider_value
     MasterAudio.assign_is_muted MasterAudio.assign_volume_label_text
     MasterAudio.assign_status_text MasterAudio.assign_mute_button
     MasterAudio.update_volume_from_key
     MasterAudio.toggle_mute MasterAudio.key_press MasterAudio.update_label
     MasterAudio.update_gui_on_mute MasterAudio.check_external_change
     MasterAudio.run
     MasterAudio.VOLUME_INTERFACE MasterAudio.device MasterAudio.stdout
     MasterAudio.env MasterAudio.self MasterAudio.volume_scalar MasterAudio.is_muted
     MasterAudio.volume_label_text MasterAudio.status_text
     MasterAudio.volume_slider_value MasterAudio.mute_button_text
     MasterAudio.mute_button_background_color
     echo_of_slider update_volume_from_gui_once assigned clamp_unit
     cached_level cached_mute backend_level backend_mute slider_level
     external connected relabelled label_follows button_follows
     Py.ne_bool Py.bool_of_int negb orb Bool.eqb Z.eqb Pos.eqb];
  cbn [fault generation level muted with_level with_muted].

(** Split on every test left in the goal: backend faults, stale pointers,
    the device's mute flag, float comparisons and boolean variables. *)
Ltac split_tests_with unfolding :=
  repeat (first
    [ match goal with |- context [Nat.eqb ?h ?h] => rewrite Nat.eqb_refl end
    | match goal with H : fault ?d ?k = _ |- context [fault ?d ?k] => rewrite H end
    | match goal with H : Nat.eqb ?h ?g = _ |- context [Nat.eqb ?h ?g] => rewrite H end
    | match goal with H : muted ?d = _ |- context [muted ?d] => rewrite H end
    | match goal with H : works ?d |- context [fault ?d ?k] => rewrite (H k) end
    | match goal with |- context [fault ?d ?k] => is_var d; destruct (fault d k) eqn:? end
    | match goal with |- context [Nat.eqb ?h (generation ?d)] =>
        is_var h; is_var d; destruct (Nat.eqb h (generation d)) eqn:? end
    | match goal with |- context [muted ?d] => is_var d; destruct (muted d) eqn:? end
    | match goal with |- context [Py.gt ?x ?y] => destruct (Py.gt x y) eqn:? end
    | match goal with |- context [if ?b then _ else _] => is_var b; destruct b end ];
    unfolding).

Ltac destruct_app a :=
  let i := fresh "i" in let d := fresh "d" in let out := fresh "out" in
  let w := fresh "w" in
  destruct a as [[i d out] w]; destruct i as [?h|]; destruct w.

(** Unfold the monadic code of the hotkey script. *)
Ltac hotkey_red :=
  cbv beta iota zeta delta
    [ret bind raise gets modify try_except try_finally zoom exec eval fst snd
     Endpoint.guard Endpoint.CreateObject Endpoint.Activate
     Endpoint.GetMasterVolumeLevelScalar Endpoint.SetMasterVolumeLevelScalar
     Endpoint.GetMute Endpoint.SetMute
     Teams3Mute.on_mic Teams3Mute.print Teams3Mute.print_stderr
     Teams3Mute.CoInitialize Teams3Mute.CoUninitialize
     Teams3Mute._create_mmdevice_enumerator Teams3Mute._get_volume_interface_for_default
     Teams3Mute.ensure_com Teams3Mute.increase_volume Teams3Mute.decrease_volume
     Teams3Mute.toggle_mute
     Teams3Mute.mic Teams3Mute.com_depth Teams3Mute.stdout Teams3Mute.stderr
     mic_level_changed
     Py.bool_of_int negb Z.eqb Pos.eqb];
  cbn [fault generation level muted with_level with_muted].

Ltac split_faults := split_tests_with ltac:(hotkey_red).

(** Unfold the monadic code of the microphone display. *)
Ltac mic_red :=
  cbv beta iota zeta delta
    [ret bind raise gets modify try_except try_finally zoom exec eval fst snd
     Endpoint.guard Endpoint.CreateObject Endpoint.Activate
     Endpoint.GetMasterVolumeLevelScalar Endpoint.SetMasterVolumeLevelScalar
     Endpoint.GetMute Endpoint.SetMute
     Teams3MicKivy.on_mic Teams3MicKivy.print
     Teams3MicKivy.CoInitialize Teams3MicKivy.CoUninitialize
     Teams3MicKivy.assign_cached_interface Teams3MicKivy.assign_layout
     Teams3MicKivy._create_mmdevice_enumerator Teams3MicKivy._get_new_interface
     Teams3MicKivy.safe_hotkey_execution Teams3MicKivy.increase_volume
     Teams3MicKivy.decrease_volume Teams3MicKivy.toggle_mute
     Teams3MicKivy.update_ui Teams3MicKivy.on_start Teams3MicKivy.on_stop
     Teams3MicKivy.check_mic_status
     Teams3MicKivy.mic Teams3MicKivy.com_depth Teams3MicKivy.stdout
     Teams3MicKivy.cached_interface Teams3MicKivy.layout
     mic_external shown
     Py.bool_of_int negb Z.eqb Pos.eqb];
  cbn [fault generation level muted with_level with_muted].


(** Unfold the registration and main-block code of the hotkey script. *)
Ltac main_red :=
  cbv beta iota zeta delta
    [ret bind raise gets modify try_except try_finally zoom exec eval fst snd
     Teams3MuteMain.in_world Teams3MuteMain.print Teams3Mute.print
     Teams3MuteMain.unhook_all_hotkeys Teams3MuteMain.add_hotkey
     Teams3MuteMain.stop_event_set Teams3MuteMain.quit_program
     Teams3MuteMain.register_hotkeys
     Teams3MuteMain.world Teams3MuteMain.hotkeys Teams3MuteMain.stop_event
     Teams3MuteMain.unhook_fault with_world
     Teams3Mute.mic Teams3Mute.com_depth Teams3Mute.stdout Teams3Mute.stderr].

(** [split_tests] for runs of several operations in a row: tests already
    decided are reused, and a level compared with itself is not far from
    itself. *)
Ltac split_more_with unfolding self_rule :=
  repeat (first
    [ match goal with |- context [Nat.eqb ?h ?h] => rewrite Nat.eqb_refl end
    | match goal with H : fault ?d ?k = _ |- context [fault ?d ?k] => rewrite H end
    | match goal with H : Nat.eqb ?h ?g = _ |- context [Nat.eqb ?h ?g] => rewrite H end
    | match goal with H : muted ?d = _ |- context [muted ?d] => rewrite H end
    | match goal with H : Py.gt ?x ?y = _ |- context [Py.gt ?x ?y] => rewrite H end
    | match goal with H : works ?d |- context [fault ?d ?k] => rewrite (H k) end
    | self_rule
    | match goal with |- context [fault ?d ?k] => is_var d; destruct (fault d k) eqn:? end
    | match goal with |- context [Nat.eqb ?h (generation ?d)] =>
        is_var h; is_var d; destruct (Nat.eqb h (generation d)) eqn:? end
    | match goal with |- context [muted ?d] => is_var d; destruct (muted d) eqn:? end
    | match goal with |- context [Py.gt ?x ?y] => destruct (Py.gt x y) eqn:? end
    | match goal with |- context [Py.eq ?x ?y] => destruct (Py.eq x y) eqn:? end
    | match goal with |- context [if ?b then _ else _] => is_var b; destruct b end ];
    unfolding).

(** ** Floating-point facts *)

Lemma ltb_leb (x y : float) : (x <? y)%float = true -> (x <=? y)%float = true.
Proof.
  rewrite ltb_spec, leb_spec. unfold SFltb, SFleb.
  destruct (SFcompare (Prim2SF x) (Prim2SF y)) as [[]|]; congruence.
Qed.

Lemma in_unit_zero : in_unit 0.0%float.
Proof. split; reflexivity. Qed.

Lemma in_unit_half : in_unit 0.5%float.
Proof. split; reflexivity. Qed.

Lemma in_unit_one : in_unit 1.0%float.
Proof. split; reflexivity. Qed.

Lemma clamp_unit_in_unit (x : float) : in_unit (clamp_unit x).
Proof.
  unfold clamp_unit, Py.max, Py.min.
  destruct (x <? 1)%float eqn:Hhi.
  - destruct (0 <? x)%float eqn:Hlo.
    + split; unfold Py.le; apply ltb_leb; assumption.
    + apply in_unit_zero.
  - change (0 <? 1)%float with true. cbv iota. apply in_unit_one.
Qed.

Lemma SFcompare_Eq (x y : spec_float) :
  SFcompare x y = Some Eq ->
  x = y \/ (exists s t, x = S754_zero s /\ y = S754_zero t).
Proof.
  destruct x as [s|s| |s m e], y as [t|t| |t n f]; cbn;
    try discriminate;
    try (destruct s; discriminate);
    try (destruct t; discriminate).
  - right; eauto.
  - destruct s, t; try discriminate; left; reflexivity.
  - destruct s, t; try discriminate;
      (destruct (Z.compare e f) eqn:E; try discriminate;
       apply Z.compare_eq in E; subst f;
       destruct (Pos.compare_cont Eq m n) eqn:E2; try discriminate;
       apply Pos.compare_eq in E2; subst; left; reflexivity).
Qed.

Lemma zero_cases (x : float) (s : bool) : Prim2SF x = S754_zero s -> is_zero x.
Proof.
  intros H. rewrite <- (SF2Prim_Prim2SF x), H.
  destruct s; [right|left]; reflexivity.
Qed.

Lemma eq_cases (x y : float) :
  Py.eq x y = true -> x = y \/ (is_zero x /\ is_zero y).
Proof.
  unfold Py.eq. rewrite FloatAxioms.eqb_spec. unfold SFeqb.
  destruct (SFcompare (Prim2SF x) (Prim2SF y)) as [[]|] eqn:E; try discriminate.
  intros _. apply SFcompare_Eq in E. destruct E as [E|(s & t & E1 & E2)].
  - left. apply Prim2SF_inj. exact E.
  - right. split; eapply zero_cases; eassumption.
Qed.

Lemma eq_in_unit (x y : float) : Py.eq x y = true -> in_unit y -> in_unit x.
Proof.
  intros H Hy. destruct (eq_cases x y H) as [->|[[->| ->] _]]; auto; split; reflexivity.
Qed.

Lemma eq_positive (x y : float) :
  Py.eq x y = true -> (0 <? y)%float = true -> x = y.
Proof.
  intros H Hy. destruct (eq_cases x y H) as [E|[_ [E|E]]]; auto;
    rewrite E in Hy; vm_compute in Hy; discriminate.
Qed.

Lemma eq_one (x : float) : Py.eq x 1.0%float = true -> x = 1.0%float.
Proof. intros H. apply eq_positive; [exact H | reflexivity]. Qed.

Lemma SFcompare_refl (x : spec_float) : x <> S754_nan -> SFcompare x x = Some Eq.
Proof.
  destruct x as [s|s| |s m e]; cbn; intros H; try reflexivity; try congruence.
  - destruct s; reflexivity.
  - destruct s; rewrite Z.compare_refl, Pos.compare_cont_refl; reflexivity.
Qed.

(** A float that takes part in a true comparison is a number. *)
Lemma leb_defined (x y : float) : (x <=? y)%float = true -> Py.eq y y = true.
Proof.
  unfold Py.eq. rewrite leb_spec, FloatAxioms.eqb_spec. unfold SFleb, SFeqb. intros H.
  rewrite SFcompare_refl; [reflexivity|].
  intros E. rewrite E in H. destruct (Prim2SF x); discriminate.
Qed.

Lemma in_unit_defined (x : float) : in_unit x -> Py.eq x x = true.
Proof. intros [H _]. exact (leb_defined _ _ H). Qed.

Lemma clamp_unit_defined (x : float) : Py.eq (clamp_unit x) (clamp_unit x) = true.
Proof. apply in_unit_defined, clamp_unit_in_unit. Qed.

(** Equal floats are not 0.005 apart. *)
Lemma eq_not_far (c b : float) :
  Py.eq c b = true -> Py.gt (abs (c - b))%float 0.005%float = false.
Proof.
  unfold Py.eq, Py.gt. rewrite FloatAxioms.eqb_spec, ltb_spec, abs_spec, sub_spec.
  unfold SFeqb, SF64sub.
  destruct (SFcompare (Prim2SF c) (Prim2SF b)) as [[]|] eqn:E; try discriminate.
  intros _. apply SFcompare_Eq in E. destruct E as [E|(s & t & E1 & E2)].
  - rewrite E. unfold SFsub.
    destruct (Prim2SF b) as [s|s| |s m e].
    + destruct s; reflexivity.
    + destruct s; reflexivity.
    + reflexivity.
    + cbv zeta. rewrite Z.sub_diag. reflexivity.
  - rewrite E1, E2. destruct s, t; reflexivity.
Qed.

Lemma far_not_eq (c b : float) :
  Py.gt (abs (c - b))%float 0.005%float = true -> Py.eq c b = false.
Proof.
  intros H. destruct (Py.eq c b) eqn:E; [|reflexivity].
  rewrite (eq_not_far c b E) in H. discriminate.
Qed.

(** A level that is more than 0.005 away from another one is a number. *)
Lemma far_defined (c b : float) :
  Py.gt (abs (c - b))%float 0.005%float = true -> Py.eq b b = true.
Proof.
  unfold Py.eq, Py.gt. rewrite FloatAxioms.eqb_spec, ltb_spec, abs_spec, sub_spec.
  unfold SFeqb, SF64sub. intros H.
  rewrite SFcompare_refl; [reflexivity|].
  intros E. rewrite E in H. unfold SFsub in H.
  destruct (Prim2SF c); discriminate.
Qed.

(** A NaN equals nothing. *)
Lemma not_number_eq (c v : float) : Py.eq v v = false -> Py.eq c v = false.
Proof.
  unfold Py.eq. rewrite !FloatAxioms.eqb_spec. unfold SFeqb. intros H.
  destruct (Prim2SF v) as [s|s| |s m e] eqn:E.
  - rewrite SFcompare_refl in H by discriminate. discriminate H.
  - rewrite SFcompare_refl in H by discriminate. discriminate H.
  - destruct (Prim2SF c) as [t|t| |t n f]; reflexivity.
  - rewrite SFcompare_refl in H by discriminate. discriminate H.
Qed.

Lemma not_number_far (c v : float) :
  Py.eq v v = false -> Py.gt (abs (c - v))%float 0.005%float = false.
Proof.
  intros H. destruct (Py.gt (abs (c - v))%float 0.005%float) eqn:E; [|reflexivity].
  rewrite (far_defined c v E) in H. discriminate H.
Qed.

Lemma eq_sym (x y : float) : Py.eq x y = true -> Py.eq y x = true.
Proof.
  intros H. destruct (eq_cases x y H) as [->|[[->| ->] [->| ->]]];
    try reflexivity; exact H.
Qed.

(** A float is never more than 0.005 away from itself, NaN and infinities
    included (their difference is NaN, which compares false). *)
Lemma gt_abs_sub_self (x : float) : Py.gt (abs (x - x))%float 0.005%float = false.
Proof.
  unfold Py.gt. rewrite ltb_spec, abs_spec, sub_spec. unfold SF64sub, SFsub.
  destruct (Prim2SF x) as [s|s| |s m e].
  - destruct s; reflexivity.
  - destruct s; reflexivity.
  - reflexivity.
  - cbv zeta. rewrite Z.sub_diag. reflexivity.
Qed.

(** ** The chain of observers *)

Ltac split_chain :=
  split_more_with ltac:(master_red)
    ltac:(idtac; match goal with H : Py.eq ?x ?y = _ |- context [Py.eq ?x ?y] => rewrite H end).

(** For a value that is a number the chain ends after the slider's echo:
    by then [volume_scalar] and the slider both hold the value. *)
Lemma gui_once_at (depth : nat) (v : float) (a : MasterAudio.App) :
  is_number v ->
  MasterAudio.update_volume_from_gui_at (S (S depth)) v a = update_volume_from_gui_once v a.
Proof.
  unfold is_number. intros Hv. destruct_app a;
    cbn [MasterAudio.update_volume_from_gui_at]; master_red; split_chain; reflexivity.
Qed.

Lemma gui_once (v : float) (a : MasterAudio.App) :
  is_number v ->
  MasterAudio.update_volume_from_gui v a = update_volume_from_gui_once v a.
Proof. exact (gui_once_at 998 v a). Qed.

(** The comparisons a run of the widget's code meets on the way: a value is
    compared with itself, a level that is far from another one is compared
    with it, and the slider's observer is entered with a number. *)
Ltac solve_number :=
  unfold is_number in *;
  first [ assumption
        | reflexivity
        | apply clamp_unit_defined
        | apply in_unit_defined; assumption
        | eapply far_defined; eassumption ].

Ltac master_rule :=
  first
    [ rewrite gt_abs_sub_self
    | match goal with H : Py.eq ?x ?y = _ |- context [Py.eq ?x ?y] => rewrite H end
    | match goal with
      | H : Py.gt (abs (?c - ?b))%float _ = true |- context [Py.eq ?c ?b] =>
          rewrite (far_not_eq c b H)
      end
    | match goal with
      | |- context [Py.eq ?v ?v] =>
          let E := fresh "E" in
          assert (E : Py.eq v v = true) by solve_number; rewrite E; clear E
      end
    | match goal with
      | |- context [MasterAudio.update_volume_from_gui ?v ?s] =>
          rewrite (gui_once v s) by solve_number
      end ].

Ltac split_master := split_more_with ltac:(master_red) ltac:(idtac; master_rule).

Ltac split_tests := split_master.

(** ** The master-volume widget *)

Lemma assigned_eq (cur v : float) : is_number v -> Py.eq (assigned cur v) v = true.
Proof.
  unfold assigned, is_number. intros Hv. destruct (Py.eq cur v) eqn:E; assumption.
Qed.

Lemma assigned_in_unit (cur v : float) : in_unit v -> in_unit (assigned cur v).
Proof.
  unfold assigned. intros Hv. destruct (Py.eq cur v) eqn:E; [|exact Hv].
  exact (eq_in_unit cur v E Hv).
Qed.

Lemma assigned_far (cur v : float) :
  Py.gt (abs (cur - v))%float 0.005%float = true -> assigned cur v = v.
Proof. intros H. unfold assigned. rewrite (far_not_eq cur v H). reflexivity. Qed.

Lemma with_level_same (d : Device) : with_level (level d) d = d.
Proof. destruct d; reflexivity. Qed.

Section MasterAudioFacts.
Import MasterAudio.

(** The keyboard path never raises. *)
Lemma key_runs (change : float) (a : App) :
  update_volume_from_key change a = (Ok tt, exec (update_volume_from_key change) a).
Proof. destruct_app a; master_red; split_master; reflexivity. Qed.

Lemma toggle_runs (a : App) : toggle_mute a = (Ok tt, exec toggle_mute a).
Proof. destruct_app a; master_red; split_master; reflexivity. Qed.

Lemma poll_runs (a : App) :
  check_external_change a = (Ok tt, exec check_external_change a).
Proof. destruct_app a; master_red; split_master; reflexivity. Qed.

Lemma gui_runs (value : float) (a : App) :
  is_number value ->
  update_volume_from_gui value a = (Ok tt, exec (update_volume_from_gui value) a).
Proof. intros Hv. destruct_app a; master_red; split_master; reflexivity. Qed.

Lemma slider_runs (value : float) (a : App) :
  is_number value ->
  run (Slider value) a = (Ok tt, exec (run (Slider value)) a).
Proof. intros Hv. destruct_app a; master_red; split_master; reflexivity. Qed.

(** The keyboard path assigns a clamped level whatever the backend does. *)
Lemma key_cached_level (change : float) (a : App) :
  cached_level (exec (update_volume_from_key change) a)
  = assigned (cached_level a) (clamp_unit (cached_level a + change)%float).
Proof. destruct_app a; master_red; split_master; reflexivity. Qed.

Lemma gui_cached_level (value : float) (a : App) :
  is_number value ->
  cached_level (exec (update_volume_from_gui value) a) = assigned (cached_level a) value.
Proof. intros Hv. destruct_app a; master_red; split_master; reflexivity. Qed.



(** On a working connection the level handed to the backend is the level
    the step computed. *)
Lemma key_backend_level (change : float) (a : App) :
  connected a ->
  fault (device (env a)) mSetMasterVolumeLevelScalar = None ->
  backend_level (exec (update_volume_from_key change) a)
  = clamp_unit (cached_level a + change)%float.
Proof.
  destruct a as [[i d out] w]; destruct w. unfold connected.
  cbn [VOLUME_INTERFACE env device]. intros -> Hs.
  master_red; split_master; reflexivity.
Qed.

Lemma gui_backend_level (value : float) (a : App) :
  is_number value ->
  connected a ->
  fault (device (env a)) mSetMasterVolumeLevelScalar = None ->
  backend_level (exec (update_volume_from_gui value) a) = value.
Proof.
  intros Hv. destruct a as [[i d out] w]; destruct w. unfold connected.
  cbn [VOLUME_INTERFACE env device]. intros -> Hs.
  master_red; split_master; reflexivity.
Qed.

(** A key is a step up, a step down, a mute toggle or nothing. *)
Lemma key_cases (keycode : Z) (codepoint : option string) (a : App) :
  exec (run (Key keycode codepoint)) a = exec (update_volume_from_key VOLUME_STEP) a
  \/ exec (run (Key keycode codepoint)) a = exec (update_volume_from_key (- VOLUME_STEP)%float) a
  \/ exec (run (Key keycode codepoint)) a = exec toggle_mute a
  \/ exec (run (Key keycode codepoint)) a = a.
Proof.
  unfold run, key_press.
  destruct (keycode =? 273)%Z.
  - left. unfold exec, bind, ret. rewrite key_runs. reflexivity.
  - destruct (keycode =? 274)%Z.
    + right; left. unfold exec, bind, ret. rewrite key_runs. reflexivity.
    + destruct codepoint as [[|ch rest]|]; try (right; right; right; reflexivity).
      destruct (String.eqb (Py.lower (String ch rest)) "m").
      * right; right; left. unfold exec, bind, ret. rewrite toggle_runs. reflexivity.
      * right; right; right; reflexivity.
Qed.

Lemma key_preserves_unit (change : float) (a : App) :
  in_unit (backend_level a) ->
  let a' := exec (update_volume_from_key change) a in
  in_unit (cached_level a') /\ in_unit (backend_level a').
Proof.
  intros Hb. cbv zeta. split.
  - rewrite key_cached_level. apply assigned_in_unit, clamp_unit_in_unit.
  - pose proof (clamp_unit_in_unit (cached_level a + change)%float) as Hc.
    revert Hb Hc. destruct_app a; master_red; split_master; auto.
Qed.

Lemma toggle_levels (a : App) :
  let a' := exec toggle_mute a in
  cached_level a' = cached_level a /\ backend_level a' = backend_level a.
Proof. destruct_app a; master_red; split_master; auto. Qed.

Lemma slider_preserves_unit (value : float) (a : App) :
  in_unit value -> in_unit (cached_level a) -> in_unit (backend_level a) ->
  let a' := exec (run (Slider value)) a in
  in_unit (cached_level a') /\ in_unit (backend_level a').
Proof.
  intros Hv. pose proof (in_unit_defined value Hv) as Hn. revert Hv.
  destruct_app a; master_red; split_master; auto.
Qed.

Lemma poll_preserves_unit (a : App) :
  in_unit (cached_level a) -> in_unit (backend_level a) ->
  let a' := exec check_external_change a in
  in_unit (cached_level a') /\ in_unit (backend_level a').
Proof.
  pose proof in_unit_zero. pose proof in_unit_half.
  destruct_app a; master_red; split_master; auto.
Qed.

Lemma run_preserves_unit (c : Command) (a : App) :
  command_in_range c -> in_unit (cached_level a) -> in_unit (backend_level a) ->
  let a' := exec (run c) a in
  in_unit (cached_level a') /\ in_unit (backend_level a').
Proof.
  intros Hc Ha Hb.
  destruct c as [value|keycode codepoint| |]; cbv zeta.
  - apply slider_preserves_unit; assumption.
  - destruct (key_cases keycode codepoint a) as [E|[E|[E|E]]]; rewrite E; auto.
    + apply key_preserves_unit; assumption.
    + apply key_preserves_unit; assumption.
    + destruct (toggle_levels a) as [E1 E2]. rewrite E1, E2. auto.
  - destruct (toggle_levels a) as [E1 E2].
    change (exec (run MuteButton) a) with (exec toggle_mute a). rewrite E1, E2. auto.
  - apply poll_preserves_unit; assumption.
Qed.

End MasterAudioFacts.

(** C1, as stated, fails on the slider path: a requested level of 1.5 is
    stored and passed to the backend as it is, above 1.0. *)
Lemma slider_path_does_not_clamp :
  let a := exec (MasterAudio.update_volume_from_gui 1.5%float)
             (MasterAudio.startup (endpoint 0.5%float false)) in
  cached_level a = 1.5%float /\ backend_level a = 1.5%float /\
  ~ in_unit (cached_level a) /\ ~ in_unit (backend_level a).
Proof.
  cbv zeta. split; [reflexivity|]. split; [reflexivity|].
  split; intros [_ H]; vm_compute in H; discriminate.
Qed.

(** C1, amended: the keyboard path clamps.  For every requested change the
    level it assigns is max(0.0, min(1.0, cached + change)), which lies in
    [0.0, 1.0]; the stored level ends equal to it and in [0.0, 1.0], and on
    a connection whose setter works the backend ends holding exactly it.
    The slider path has no clamp: for every value that is a number the
    stored level ends equal to the value and the backend ends holding it.
    So the stored level and the backend level stay in [0.0, 1.0] after every
    command, polls included, as long as slider events carry values of the
    slider's range. *)
Theorem stored_level_stays_in_range :
  (forall change a,
      let new_scalar := clamp_unit (cached_level a + change)%float in
      let a' := exec (MasterAudio.update_volume_from_key change) a in
      in_unit new_scalar /\
      cached_level a' = assigned (cached_level a) new_scalar /\
      Py.eq (cached_level a') new_scalar = true /\
      in_unit (cached_level a') /\
      (connected a ->
       fault (MasterAudio.device (MasterAudio.env a)) mSetMasterVolumeLevelScalar = None ->
       backend_level a' = new_scalar)) /\
  (forall value a,
      is_number value ->
      let a' := exec (MasterAudio.update_volume_from_gui value) a in
      cached_level a' = assigned (cached_level a) value /\
      Py.eq (cached_level a') value = true /\
      (connected a ->
       fault (MasterAudio.device (MasterAudio.env a)) mSetMasterVolumeLevelScalar = None ->
       backend_level a' = value)) /\
  (forall c a,
      command_in_range c -> in_unit (cached_level a) -> in_unit (backend_level a) ->
      let a' := exec (MasterAudio.run c) a in
      in_unit (cached_level a') /\ in_unit (backend_level a')).
Proof.
  split; [|split].
  - intros change a new_scalar a'. subst new_scalar a'.
    rewrite key_cached_level.
    split; [apply clamp_unit_in_unit|]. split; [reflexivity|].
    split; [apply assigned_eq, clamp_unit_defined|].
    split; [apply assigned_in_unit, clamp_unit_in_unit|].
    apply key_backend_level.
  - intros value a Hv a'. subst a'. rewrite (gui_cached_level value a Hv).
    split; [reflexivity|]. split; [apply assigned_eq; exact Hv|].
    apply gui_backend_level; exact Hv.
  - apply run_preserves_unit.
Qed.

Lemma stored_level_stays_in_range_witness :
  let a := external (endpoint 0.9%float false)
             (MasterAudio.startup (endpoint 0.5%float false)) in
  backend_level (exec (MasterAudio.update_volume_from_key 0.7%float) a) = 1.0%float /\
  backend_level (exec (MasterAudio.update_volume_from_gui 0.8%float) a) = 0.8%float /\
  in_unit (cached_level (exec (MasterAudio.run MasterAudio.Tick) a)).
Proof.
  cbv zeta. split; [|split].
  - destruct (proj1 stored_level_stays_in_range 0.7%float
                (external (endpoint 0.9%float false)
                   (MasterAudio.startup (endpoint 0.5%float false))))
      as (_ & _ & _ & _ & Hb).
    rewrite (Hb eq_refl eq_refl). reflexivity.
  - destruct (proj1 (proj2 stored_level_stays_in_range) 0.8%float
                (external (endpoint 0.9%float false)
                   (MasterAudio.startup (endpoint 0.5%float false))) eq_refl)
      as (_ & _ & Hb).
    exact (Hb eq_refl eq_refl).
  - apply (proj2 (proj2 stored_level_stays_in_range) MasterAudio.Tick
             (external (endpoint 0.9%float false)
                (MasterAudio.startup (endpoint 0.5%float false))));
      [exact I | split; reflexivity | split; reflexivity].
Defined.

Section PollFacts.
Import MasterAudio.

(** No command of the widget lets an exception escape, as long as the
    slider carries a number. *)
Lemma run_returns (c : Command) (a : App) :
  command_defined c -> returns (run c) a.
Proof.
  unfold returns. destruct c as [value|keycode codepoint| |]; cbn [command_defined]; intros Hc.
  - rewrite slider_runs by exact Hc. eexists; reflexivity.
  - unfold run, key_press.
    destruct (keycode =? 273)%Z; [|destruct (keycode =? 274)%Z].
    + unfold bind. rewrite key_runs. eexists; reflexivity.
    + unfold bind. rewrite key_runs. eexists; reflexivity.
    + destruct codepoint as [[|ch rest]|]; try (eexists; reflexivity).
      destruct (String.eqb (Py.lower (String ch rest)) "m"); [|eexists; reflexivity].
      unfold bind. rewrite toggle_runs. eexists; reflexivity.
  - change (run MuteButton) with toggle_mute. rewrite toggle_runs. eexists; reflexivity.
  - change (run Tick) with check_external_change. rewrite poll_runs. eexists; reflexivity.
Qed.


End PollFacts.

(** C2, as stated, fails when only the mute flag differs: the poll takes
    over the mute flag but keeps its cached level, so the cache does not
    become the backend state. *)
Lemma poll_updates_fields_separately :
  let a := external (endpoint 0.503%float true)
             (MasterAudio.startup (endpoint 0.5%float false)) in
  let a' := exec MasterAudio.check_external_change a in
  cached_mute a = false /\ backend_mute a = true /\
  cached_mute a' = true /\
  cached_level a' = 0.5%float /\ backend_level a' = 0.503%float /\
  (cached_level a' =? backend_level a')%float = false.
Proof. cbv zeta. repeat split; reflexivity. Qed.

(** C2, amended: on a working connection the poll returns nothing and
    reconciles the two fields independently.  The cached level becomes the
    backend level exactly when their absolute difference exceeds 0.005 and
    is kept otherwise; the cached mute flag always ends equal to the backend
    flag; the backend keeps its state.  When neither field differs the whole
    state is left as it was. *)
Theorem poll_reconciles_each_field (a : MasterAudio.App) :
  connected a ->
  fault (MasterAudio.device (MasterAudio.env a)) mGetMasterVolumeLevelScalar = None ->
  fault (MasterAudio.device (MasterAudio.env a)) mGetMute = None ->
  let a' := exec MasterAudio.check_external_change a in
  eval MasterAudio.check_external_change a = Some tt /\
  MasterAudio.device (MasterAudio.env a') = MasterAudio.device (MasterAudio.env a) /\
  cached_level a' =
    (if Py.gt (abs (cached_level a - backend_level a))%float 0.005%float
     then backend_level a else cached_level a) /\
  cached_mute a' = backend_mute a /\
  (Py.gt (abs (cached_level a - backend_level a))%float 0.005%float = false ->
   cached_mute a = backend_mute a -> a' = a).
Proof.
  destruct a as [[i d out] w]; destruct w.
  unfold connected; cbn [MasterAudio.VOLUME_INTERFACE MasterAudio.env MasterAudio.device].
  intros -> Hl Hm. master_red.
  split_master; repeat split; try reflexivity; try (intros; congruence);
    try (fold (with_level (level d) d); rewrite with_level_same; reflexivity).
Qed.

(** The scenario of the claim: cached level 0.5, backend moved to 0.7. *)
Lemma poll_reconciles_each_field_witness :
  let a := external (endpoint 0.7%float false)
             (MasterAudio.startup (endpoint 0.5%float false)) in
  let a' := exec MasterAudio.check_external_change a in
  cached_level a' = 0.7%float /\ cached_mute a' = false.
Proof.
  cbv zeta.
  destruct (poll_reconciles_each_field
              (external (endpoint 0.7%float false)
                 (MasterAudio.startup (endpoint 0.5%float false)))
              eq_refl eq_refl eq_refl) as (_ & _ & Hl & Hm & _).
  split; [rewrite Hl | rewrite Hm]; reflexivity.
Defined.

(** C3, as stated, fails on its second half: when the backend write raises
    during a request for level 0.3, nothing escapes, but the cached level
    moves from 0.5 to the requested value while the backend keeps 0.5. *)
Lemma cache_moves_although_write_failed :
  let a := external (write_protected 0.5%float false "device unavailable")
             (MasterAudio.startup (endpoint 0.5%float false)) in
  let a' := exec (MasterAudio.update_volume_from_gui 0.3%float) a in
  eval (MasterAudio.update_volume_from_gui 0.3%float) a = Some tt /\
  cached_level a = 0.5%float /\
  cached_level a' = 0.3%float /\
  (cached_level a' =? cached_level a)%float = false /\
  backend_level a' = 0.5%float.
Proof. cbv zeta. repeat split; reflexivity. Qed.

(** C3, amended: when the backend write raises during a level request, no
    exception escapes and the backend keeps its state, but the level is
    still assigned to the cache, which ends equal to the requested value
    (slider path, for a value that is a number) or to the clamped sum
    (keyboard path); the cached mute flag is untouched.  Every failed write
    prints one line.  A slider event that moves the slider writes once.  The
    keyboard step writes once itself and, when it changes the cached level
    and thereby moves the slider, a second time from the slider's observer;
    so does a call of the slider's handler with a value the slider does not
    hold. *)
Theorem failed_write_is_swallowed (a : MasterAudio.App) (h : Handle) (msg : string) :
  MasterAudio.VOLUME_INTERFACE (MasterAudio.env a) = MasterAudio.EndpointVolume h ->
  fault (MasterAudio.device (MasterAudio.env a)) mSetMasterVolumeLevelScalar = Some msg ->
  let line := ("Error setting volume: " ++ msg)%string in
  (forall value,
      is_number value ->
      Py.eq (slider_level a) value = false ->
      let a' := exec (MasterAudio.run (MasterAudio.Slider value)) a in
      eval (MasterAudio.run (MasterAudio.Slider value)) a = Some tt /\
      MasterAudio.device (MasterAudio.env a') = MasterAudio.device (MasterAudio.env a) /\
      MasterAudio.stdout (MasterAudio.env a')
        = (MasterAudio.stdout (MasterAudio.env a) ++ [line])%list /\
      cached_level a' = assigned (cached_level a) value /\
      Py.eq (cached_level a') value = true /\
      cached_mute a' = cached_mute a) /\
  (forall value,
      is_number value ->
      let a' := exec (MasterAudio.update_volume_from_gui value) a in
      eval (MasterAudio.update_volume_from_gui value) a = Some tt /\
      MasterAudio.device (MasterAudio.env a') = MasterAudio.device (MasterAudio.env a) /\
      MasterAudio.stdout (MasterAudio.env a')
        = (MasterAudio.stdout (MasterAudio.env a)
           ++ line :: (if Py.eq (cached_level a) value || Py.eq (slider_level a) value
                       then [] else [line]))%list /\
      cached_level a' = assigned (cached_level a) value /\
      Py.eq (cached_level a') value = true /\
      cached_mute a' = cached_mute a) /\
  (forall change,
      let new_scalar := clamp_unit (cached_level a + change)%float in
      let a' := exec (MasterAudio.update_volume_from_key change) a in
      eval (MasterAudio.update_volume_from_key change) a = Some tt /\
      MasterAudio.device (MasterAudio.env a') = MasterAudio.device (MasterAudio.env a) /\
      MasterAudio.stdout (MasterAudio.env a')
        = (MasterAudio.stdout (MasterAudio.env a)
           ++ line :: (if Py.eq (cached_level a) new_scalar || Py.eq (slider_level a) new_scalar
                       then [] else [line]))%list /\
      cached_level a' = assigned (cached_level a) new_scalar /\
      Py.eq (cached_level a') new_scalar = true /\
      cached_mute a' = cached_mute a).
Proof.
  destruct a as [[i d out] w]; destruct w.
  cbn [MasterAudio.VOLUME_INTERFACE MasterAudio.env MasterAudio.device].
  intros -> Hf. cbv zeta. split; [|split].
  - intros value Hv Hs. revert Hs. master_red. intros Hs.
    split_master; repeat split; try reflexivity; try solve_number;
      rewrite <- ?app_assoc; reflexivity.
  - intros value Hv. master_red.
    split_master; repeat split; try reflexivity; try solve_number;
      rewrite <- ?app_assoc; reflexivity.
  - intros change. master_red.
    split_master; repeat split; try reflexivity; try solve_number;
      rewrite <- ?app_assoc; reflexivity.
Qed.

Lemma failed_write_is_swallowed_witness :
  let a := external (write_protected 0.5%float false "device unavailable")
             (MasterAudio.startup (endpoint 0.5%float false)) in
  let a1 := exec (MasterAudio.run (MasterAudio.Slider 0.3%float)) a in
  let a2 := exec (MasterAudio.update_volume_from_key 0.05%float) a in
  backend_level a1 = 0.5%float /\ cached_level a1 = 0.3%float /\
  MasterAudio.stdout (MasterAudio.env a1) = ["Error setting volume: device unavailable"] /\
  MasterAudio.stdout (MasterAudio.env a2)
  = ["Error setting volume: device unavailable"; "Error setting volume: device unavailable"].
Proof.
  cbv zeta.
  pose proof (failed_write_is_swallowed
                (external (write_protected 0.5%float false "device unavailable")
                   (MasterAudio.startup (endpoint 0.5%float false)))
                0 "device unavailable" eq_refl eq_refl) as H.
  cbv zeta in H. destruct H as (Hs & _ & Hk).
  destruct (Hs 0.3%float eq_refl eq_refl) as (_ & Hd & Ho & Hl & _).
  destruct (Hk 0.05%float) as (_ & _ & Ho2 & _).
  split; [|split; [|split]].
  - unfold backend_level. rewrite Hd. reflexivity.
  - rewrite Hl. reflexivity.
  - rewrite Ho. reflexivity.
  - rewrite Ho2. reflexivity.
Defined.




(** ** The microphone hotkeys *)

(** C5: in every state of the widget, toggling mute twice brings the cached
    mute flag back and neither toggle changes the cached level, which a mute
    therefore never zeroes; the same holds for the mute flag and the level
    the microphone holds under the hotkey handler. *)
Theorem toggle_mute_twice_restores :
  (forall a,
      let a1 := exec MasterAudio.toggle_mute a in
      let a2 := exec MasterAudio.toggle_mute a1 in
      cached_mute a1 = negb (cached_mute a) /\
      cached_mute a2 = cached_mute a /\
      cached_level a1 = cached_level a /\
      cached_level a2 = cached_level a /\
      backend_level a2 = backend_level a) /\
  (forall w,
      let w1 := exec Teams3Mute.toggle_mute w in
      let w2 := exec Teams3Mute.toggle_mute w1 in
      muted (Teams3Mute.mic w2) = muted (Teams3Mute.mic w) /\
      level (Teams3Mute.mic w1) = level (Teams3Mute.mic w) /\
      level (Teams3Mute.mic w2) = level (Teams3Mute.mic w)).
Proof.
  split.
  - intros a. destruct_app a; master_red; split_tests; repeat split; reflexivity.
  - intros [d depth out err]. hotkey_red.
    split_faults; repeat split; try reflexivity; congruence.
Qed.

(** *** Repeated steps *)

Lemma last_cons_default {A : Type} (l : list A) (x d : A) :
  last (x :: l) d = last l x.
Proof.
  revert x d. induction l as [|y l IH]; intros x d; [reflexivity|].
  change (last (x :: y :: l) d) with (last (y :: l) d).
  rewrite (IH y d), (IH y x). reflexivity.
Qed.

Lemma key_trace_levels (n : nat) (change : float) (a : MasterAudio.App) :
  fst (MasterAudio.key_trace n change a) = key_levels n change (cached_level a) /\
  cached_level (snd (MasterAudio.key_trace n change a))
  = last (key_levels n change (cached_level a)) (cached_level a).
Proof.
  revert a. induction n as [|n IH]; intros a; [split; reflexivity|].
  cbn [MasterAudio.key_trace key_levels].
  specialize (IH (exec (MasterAudio.update_volume_from_key change) a)).
  rewrite key_cached_level in IH.
  destruct (MasterAudio.key_trace n change
              (exec (MasterAudio.update_volume_from_key change) a)) as [l a''].
  cbn [fst snd] in *. destruct IH as [IH1 IH2]. split.
  - unfold cached_level at 1. fold (cached_level (exec (MasterAudio.update_volume_from_key change) a)).
    rewrite key_cached_level, IH1. reflexivity.
  - rewrite IH2. symmetry. apply last_cons_default.
Qed.

(** On a working microphone the volume-up hotkey reads the device level and
    writes [hotkey_up] of it, leaving the rest of the device alone. *)
Lemma increase_volume_on_working_mic (w : Teams3Mute.World) :
  works (Teams3Mute.mic w) ->
  Teams3Mute.mic (exec Teams3Mute.increase_volume w)
  = with_level (hotkey_up (level (Teams3Mute.mic w))) (Teams3Mute.mic w).
Proof.
  destruct w as [d depth out err]. cbn [Teams3Mute.mic]. intros H. hotkey_red.
  repeat (first [rewrite H | rewrite Nat.eqb_refl]; hotkey_red). reflexivity.
Qed.

Lemma decrease_volume_on_working_mic (w : Teams3Mute.World) :
  works (Teams3Mute.mic w) ->
  Teams3Mute.mic (exec Teams3Mute.decrease_volume w)
  = with_level (hotkey_down (level (Teams3Mute.mic w))) (Teams3Mute.mic w).
Proof.
  destruct w as [d depth out err]. cbn [Teams3Mute.mic]. intros H. hotkey_red.
  repeat (first [rewrite H | rewrite Nat.eqb_refl]; hotkey_red). reflexivity.
Qed.

Lemma increase_trace_levels (n : nat) (w : Teams3Mute.World) :
  works (Teams3Mute.mic w) ->
  fst (Teams3Mute.increase_trace n w) = hotkey_levels n (level (Teams3Mute.mic w)) /\
  level (Teams3Mute.mic (snd (Teams3Mute.increase_trace n w)))
  = last (hotkey_levels n (level (Teams3Mute.mic w))) (level (Teams3Mute.mic w)).
Proof.
  revert w. induction n as [|n IH]; intros w H; [split; reflexivity|].
  cbn [Teams3Mute.increase_trace hotkey_levels].
  pose proof (increase_volume_on_working_mic w H) as E.
  specialize (IH (exec Teams3Mute.increase_volume w)).
  rewrite E in IH. cbn [level with_level] in IH.
  destruct (Teams3Mute.increase_trace n (exec Teams3Mute.increase_volume w)) as [l w''].
  cbn [fst snd] in *. destruct IH as [IH1 IH2]; [exact H|]. split.
  - rewrite E, IH1. reflexivity.
  - rewrite IH2. symmetry. apply last_cons_default.
Qed.

(** C6: from level 0.0, twenty steps of +0.05 end at exactly 1.0 and no
    level on the way exceeds 1.0; this holds for the arrow key of the widget
    from every state whose cached level is 0.0, and for the volume-up hotkey
    on every working microphone at level 0.0. *)
Theorem twenty_steps_reach_full_volume :
  (forall a,
      cached_level a = 0.0%float ->
      let trace := fst (MasterAudio.key_trace 20 MasterAudio.VOLUME_STEP a) in
      let a' := snd (MasterAudio.key_trace 20 MasterAudio.VOLUME_STEP a) in
      cached_level a' = 1.0%float /\
      List.length trace = 20 /\
      forallb (fun v => Py.le v 1.0%float) trace = true) /\
  (forall w,
      works (Teams3Mute.mic w) ->
      level (Teams3Mute.mic w) = 0.0%float ->
      let trace := fst (Teams3Mute.increase_trace 20 w) in
      let w' := snd (Teams3Mute.increase_trace 20 w) in
      level (Teams3Mute.mic w') = 1.0%float /\
      List.length trace = 20 /\
      forallb (fun v => Py.le v 1.0%float) trace = true).
Proof.
  split.
  - intros a H0. cbv zeta.
    destruct (key_trace_levels 20 MasterAudio.VOLUME_STEP a) as [E1 E2].
    rewrite E1, E2, H0. vm_compute. repeat split; reflexivity.
  - intros w Hw H0. cbv zeta.
    destruct (increase_trace_levels 20 w Hw) as [E1 E2].
    rewrite E1, E2, H0. vm_compute. repeat split; reflexivity.
Qed.

Lemma twenty_steps_reach_full_volume_witness :
  cached_level
    (snd (MasterAudio.key_trace 20 MasterAudio.VOLUME_STEP
            (MasterAudio.startup (endpoint 0.0%float false)))) = 1.0%float /\
  level (Teams3Mute.mic
           (snd (Teams3Mute.increase_trace 20
                   (Teams3Mute.mkWorld (endpoint 0.0%float false) 0 [] [])))) = 1.0%float.
Proof.
  split.
  - apply (proj1 twenty_steps_reach_full_volume
             (MasterAudio.startup (endpoint 0.0%float false))).
    reflexivity.
  - apply (proj2 twenty_steps_reach_full_volume
             (Teams3Mute.mkWorld (endpoint 0.0%float false) 0 [] [])).
    + intros k. reflexivity.
    + reflexivity.
Defined.

(** C7, as stated, fails for the hotkey step: it has no cached level to
    start from and reads the level from the backend.  With the script in
    one and the same state, a microphone at 0.2 is set to 0.25 and a
    microphone at 0.5 is set to 0.55. *)
Lemma hotkey_step_reads_the_backend :
  let w := Teams3Mute.mkWorld (endpoint 0.2%float false) 0 [] [] in
  let w' := mic_level_changed 0.5%float w in
  Teams3Mute.com_depth w' = Teams3Mute.com_depth w /\
  Teams3Mute.stdout w' = Teams3Mute.stdout w /\
  Teams3Mute.stderr w' = Teams3Mute.stderr w /\
  level (Teams3Mute.mic (exec Teams3Mute.increase_volume w)) = 0.25%float /\
  level (Teams3Mute.mic (exec Teams3Mute.increase_volume w')) = 0.55%float.
Proof. cbv zeta. repeat split; reflexivity. Qed.

(** C7, amended: the keyboard step reads the cached level, adds the change,
    clamps the sum to [0.0, 1.0] and assigns that value to the cache, which
    ends equal to it whatever level the backend holds; on a working
    connection the same value is written to the backend.  The hotkey steps
    keep no cache: on a working microphone they read the backend level, move
    it by five points on the percent scale within [0, 100], and write the
    result converted back to a scalar. *)
Theorem adjust_level_by_path :
  (forall change a,
      let new_scalar := clamp_unit (cached_level a + change)%float in
      let a' := exec (MasterAudio.update_volume_from_key change) a in
      eval (MasterAudio.update_volume_from_key change) a = Some tt /\
      cached_level a' = assigned (cached_level a) new_scalar /\
      Py.eq (cached_level a') new_scalar = true /\
      (forall d,
          cached_level (exec (MasterAudio.update_volume_from_key change) (external d a))
          = cached_level a') /\
      (connected a ->
       fault (MasterAudio.device (MasterAudio.env a)) mSetMasterVolumeLevelScalar = None ->
       backend_level a' = new_scalar)) /\
  (forall w,
      works (Teams3Mute.mic w) ->
      level (Teams3Mute.mic (exec Teams3Mute.increase_volume w))
      = hotkey_up (level (Teams3Mute.mic w)) /\
      level (Teams3Mute.mic (exec Teams3Mute.decrease_volume w))
      = hotkey_down (level (Teams3Mute.mic w))).
Proof.
  split.
  - intros change a new_scalar a'. subst new_scalar a'. rewrite !key_cached_level.
    split; [|split; [|split; [|split]]].
    + unfold eval. rewrite key_runs. reflexivity.
    + reflexivity.
    + apply assigned_eq, clamp_unit_defined.
    + intros d. rewrite !key_cached_level. reflexivity.
    + apply key_backend_level.
  - intros w Hw. rewrite increase_volume_on_working_mic, decrease_volume_on_working_mic by exact Hw.
    split; reflexivity.
Qed.

Lemma adjust_level_by_path_witness :
  let a := external (endpoint 0.9%float false)
             (MasterAudio.startup (endpoint 0.5%float false)) in
  backend_level (exec (MasterAudio.update_volume_from_key 0.05%float) a) = 0.55%float /\
  level (Teams3Mute.mic
           (exec Teams3Mute.increase_volume
              (Teams3Mute.mkWorld (endpoint 0.2%float false) 0 [] []))) = 0.25%float.
Proof.
  cbv zeta. split.
  - destruct (proj1 adjust_level_by_path 0.05%float
                (external (endpoint 0.9%float false)
                   (MasterAudio.startup (endpoint 0.5%float false))))
      as (_ & _ & _ & _ & Hb).
    rewrite (Hb eq_refl eq_refl). reflexivity.
  - rewrite (proj1 (proj2 adjust_level_by_path
                      (Teams3Mute.mkWorld (endpoint 0.2%float false) 0 [] [])
                      (fun k => eq_refl))).
    reflexivity.
Defined.

(** *** Startup without an audio device *)

Section MockFacts.
Import MasterAudio.

(** On the mock the chain of observers leaves the device and the interface
    alone, however deep it runs and whether or not it ends by raising. *)
Lemma gui_at_on_mock (depth : nat) (value : float) (a : App) :
  VOLUME_INTERFACE (env a) = MockVolume ->
  VOLUME_INTERFACE (env (exec (update_volume_from_gui_at depth value) a)) = MockVolume /\
  device (env (exec (update_volume_from_gui_at depth value) a)) = device (env a).
Proof.
  revert a. induction depth as [|depth IH]; intros a Hm; [split; [exact Hm | reflexivity]|].
  destruct a as [[i d out] w]; destruct w. cbn [VOLUME_INTERFACE env] in Hm. subst i.
  cbn [update_volume_from_gui_at]. master_red; split_chain; try (split; reflexivity).
  match goal with
  | |- context [update_volume_from_gui_at depth value ?s] =>
      destruct (IH s eq_refl) as [H1 H2]; unfold exec in H1, H2;
      destruct (update_volume_from_gui_at depth value s) as [[[]|e] [[i' d' out'] w']];
      cbn [snd env VOLUME_INTERFACE device] in H1, H2; subst; split; reflexivity
  end.
Qed.

Lemma run_on_mock (c : Command) (a : App) :
  VOLUME_INTERFACE (env a) = MockVolume ->
  VOLUME_INTERFACE (env (exec (run c) a)) = MockVolume /\
  device (env (exec (run c) a)) = device (env a).
Proof.
  intros Hm. destruct c as [value|keycode codepoint| |].
  - destruct a as [[i d out] w]; destruct w. cbn [VOLUME_INTERFACE env] in Hm. subst i.
    master_red; split_chain; try (split; reflexivity).
    match goal with
    | |- context [update_volume_from_gui value ?s] =>
        destruct (gui_at_on_mock recursion_limit value s eq_refl) as [H1 H2];
        unfold exec in H1, H2; fold (update_volume_from_gui value) in H1, H2;
        destruct (update_volume_from_gui value s) as [[[]|e] [[i' d' out'] w']];
        cbn [snd env VOLUME_INTERFACE device] in H1, H2; subst; split; reflexivity
    end.
  - destruct (key_cases keycode codepoint a) as [E|[E|[E|E]]]; rewrite E; auto;
      revert Hm; destruct_app a; intros Hm; try discriminate Hm;
      master_red; split_master; split; reflexivity.
  - revert Hm; destruct_app a; intros Hm; try discriminate Hm;
      master_red; split_master; split; reflexivity.
  - revert Hm; destruct_app a; intros Hm; try discriminate Hm;
      master_red; split_master; split; reflexivity.
Qed.

Lemma run_all_on_mock (cs : list Command) (a : App) :
  VOLUME_INTERFACE (env a) = MockVolume ->
  device (env (exec (run_all cs) a)) = device (env a) /\
  VOLUME_INTERFACE (env (exec (run_all cs) a)) = MockVolume /\
  (Forall command_defined cs -> eval (run_all cs) a = Some tt).
Proof.
  revert a. induction cs as [|c cs IH]; intros a Hm.
  - split; [reflexivity|]. split; [exact Hm | reflexivity].
  - destruct (run_on_mock c a Hm) as (Hi & Hd).
    destruct (IH (exec (run c) a) Hi) as (IHd & IHi & IHr).
    pose proof (run_returns c a) as Hr.
    unfold eval, exec, returns in *. cbn [run_all]. unfold bind.
    destruct (run c a) as [[[]|e] a1]; cbn [fst snd] in *.
    + split; [rewrite IHd; exact Hd|]. split; [exact IHi|].
      intros Hcs. inversion Hcs; subst. auto.
    + split; [exact Hd|]. split; [exact Hi|].
      intros Hcs. inversion Hcs as [|? ? Hc Hcs']; subst.
      destruct (Hr Hc) as [x Hx]. discriminate Hx.
Qed.

(** When activation raises, start-up goes through the [except] branch of
    [get_volume_interface] and builds the widget on the mock. *)
Lemma load_without_device (d : Device) (msg : string) :
  fault d mActivate = Some msg ->
  get_volume_interface (d, [])
  = (Ok MockVolume, (d, [("Error accessing audio device: " ++ msg)%string])) /\
  load d
  = Ok (mkApp (mkEnv MockVolume d [("Error accessing audio device: " ++ msg)%string])
          (mkWidget 0.5%float false "Volume: 50%"
             "Use Up/Down Arrows to adjust volume. Press 'M' to mute."
             0.5%float "Mute (M)" (1, 1, 1, 1)%float)).
Proof.
  intros Hf.
  assert (E : get_volume_interface (d, [])
              = (Ok MockVolume, (d, [("Error accessing audio device: " ++ msg)%string]))).
  { unfold get_volume_interface. master_red. rewrite Hf. reflexivity. }
  split; [exact E|]. unfold load. rewrite E. reflexivity.
Qed.

End MockFacts.

(** C10: when activating the audio device raises at startup, the exception
    is caught in [get_volume_interface], which prints it and hands out the
    mock object, and the program starts.  The mock's level getter answers
    0.5, its mute getter answers unmuted and its setters do nothing; the
    widget starts with cached level 0.5, unmuted; no sequence of commands
    changes the device or the interface, and none raises as long as the
    slider carries numbers. *)
Theorem startup_failure_falls_back_to_mock (d : Device) (msg : string) :
  fault d mActivate = Some msg ->
  let a0 := MasterAudio.startup d in
  MasterAudio.get_volume_interface (d, [])
  = (Ok MasterAudio.MockVolume, (d, [("Error accessing audio device: " ++ msg)%string])) /\
  MasterAudio.load d = Ok a0 /\
  MasterAudio.VOLUME_INTERFACE (MasterAudio.env a0) = MasterAudio.MockVolume /\
  cached_level a0 = 0.5%float /\
  cached_mute a0 = false /\
  MasterAudio.device (MasterAudio.env a0) = d /\
  (forall d',
      MasterAudio.GetMasterVolumeLevelScalar MasterAudio.MockVolume d' = (Ok 0.5%float, d') /\
      MasterAudio.GetMute MasterAudio.MockVolume d' = (Ok 0%Z, d') /\
      (forall v, MasterAudio.SetMasterVolumeLevelScalar MasterAudio.MockVolume v d' = (Ok tt, d')) /\
      (forall m, MasterAudio.SetMute MasterAudio.MockVolume m d' = (Ok tt, d'))) /\
  (forall cs,
      MasterAudio.device (MasterAudio.env (exec (run_all cs) a0)) = d /\
      MasterAudio.VOLUME_INTERFACE (MasterAudio.env (exec (run_all cs) a0))
      = MasterAudio.MockVolume /\
      (Forall command_defined cs -> eval (run_all cs) a0 = Some tt)).
Proof.
  intros Hf. destruct (load_without_device d msg Hf) as [Eg El].
  cbv zeta. unfold MasterAudio.startup. rewrite El.
  split; [exact Eg|]. repeat split.
  - match goal with
    | |- MasterAudio.device (MasterAudio.env (exec (run_all cs) ?a)) = _ =>
        destruct (run_all_on_mock cs a eq_refl) as (Hd & _ & _); rewrite Hd
    end.
    reflexivity.
  - apply run_all_on_mock. reflexivity.
  - apply run_all_on_mock. reflexivity.
Qed.

Lemma startup_failure_falls_back_to_mock_witness :
  let a0 := MasterAudio.startup (broken 0.8%float true "no audio device") in
  MasterAudio.load (broken 0.8%float true "no audio device") = Ok a0 /\
  cached_level a0 = 0.5%float /\ cached_mute a0 = false /\
  backend_level
    (exec (run_all [MasterAudio.Key 273 None; MasterAudio.Slider 0.3%float;
                    MasterAudio.MuteButton; MasterAudio.Tick]) a0) = 0.8%float.
Proof.
  cbv zeta.
  destruct (startup_failure_falls_back_to_mock
              (broken 0.8%float true "no audio device") "no audio device" eq_refl)
    as (_ & Hload & _ & Hl & Hm & _ & _ & Hrun).
  split; [exact Hload|]. split; [exact Hl|]. split; [exact Hm|].
  unfold backend_level. rewrite (proj1 (Hrun _)). reflexivity.
Defined.

(** ** The microphone display *)

Section MicFacts.
Import Teams3MicKivy.








End MicFacts.




(** ** Percent texts *)









Section DisplayFacts.
Import MasterAudio.







End DisplayFacts.






(** * Further properties of the code *)

(** ** Hotkey handlers *)

Lemma percent_to_scalar_in_unit (p : float) : in_unit (Teams3Mute._percent_to_scalar p).
Proof. exact (clamp_unit_in_unit (p / 100.0)%float). Qed.

(** X1: the three handlers of the hotkey script give back every COM
    initialisation they take, on the normal path and when the body raises. *)
Theorem hotkey_handlers_release_com (w : Teams3Mute.World) :
  Teams3Mute.com_depth (exec Teams3Mute.increase_volume w) = Teams3Mute.com_depth w /\
  Teams3Mute.com_depth (exec Teams3Mute.decrease_volume w) = Teams3Mute.com_depth w /\
  Teams3Mute.com_depth (exec Teams3Mute.toggle_mute w) = Teams3Mute.com_depth w.
Proof.
  destruct w as [d depth out err].
  repeat split; hotkey_red; split_faults; reflexivity.
Qed.

(** X2: a handler of the hotkey script never raises, and it ends in one of
    two ways: it printed its line on stdout and nothing on stderr, or it left
    the microphone and stdout untouched and reported the exception on
    stderr. *)
Theorem hotkey_handler_succeeds_or_changes_nothing (w : Teams3Mute.World) :
  forall handler,
    handler = Teams3Mute.increase_volume \/ handler = Teams3Mute.decrease_volume
    \/ handler = Teams3Mute.toggle_mute ->
    let w' := exec handler w in
    eval handler w = Some tt /\
    ((Teams3Mute.stderr w' = Teams3Mute.stderr w /\
      exists line, Teams3Mute.stdout w' = (Teams3Mute.stdout w ++ [line])%list) \/
     (Teams3Mute.mic w' = Teams3Mute.mic w /\
      Teams3Mute.stdout w' = Teams3Mute.stdout w /\
      exists msg,
        Teams3Mute.stderr w'
        = (Teams3Mute.stderr w ++ ["Exception in handler:"; msg])%list)).
Proof.
  destruct w as [d depth out err].
  intros handler [-> | [-> | ->]]; hotkey_red; split_faults;
    (split; [reflexivity|]);
    first [ left; split; [reflexivity | eexists; reflexivity]
          | right; split; [reflexivity | split; [reflexivity |]];
            eexists; rewrite <- app_assoc; reflexivity ].
Qed.

Lemma hotkey_handler_succeeds_or_changes_nothing_witness :
  let w := Teams3Mute.mkWorld (broken 0.4%float false "no microphone") 0 [] [] in
  eval Teams3Mute.decrease_volume w = Some tt.
Proof.
  cbv zeta.
  exact (proj1 (hotkey_handler_succeeds_or_changes_nothing
                  (Teams3Mute.mkWorld (broken 0.4%float false "no microphone") 0 [] [])
                  Teams3Mute.decrease_volume (or_intror (or_introl eq_refl)))).
Defined.

(** X3: whatever level the microphone reports, NaN and out-of-range values
    included, a volume handler that changes the device leaves a level in
    [0.0, 1.0] and the mute flag as it was. *)
Theorem hotkey_writes_stay_in_range (w : Teams3Mute.World) :
  (Teams3Mute.mic (exec Teams3Mute.increase_volume w) = Teams3Mute.mic w \/
   in_unit (level (Teams3Mute.mic (exec Teams3Mute.increase_volume w))) /\
   muted (Teams3Mute.mic (exec Teams3Mute.increase_volume w)) = muted (Teams3Mute.mic w)) /\
  (Teams3Mute.mic (exec Teams3Mute.decrease_volume w) = Teams3Mute.mic w \/
   in_unit (level (Teams3Mute.mic (exec Teams3Mute.decrease_volume w))) /\
   muted (Teams3Mute.mic (exec Teams3Mute.decrease_volume w)) = muted (Teams3Mute.mic w)).
Proof.
  destruct w as [d depth out err].
  split; hotkey_red; split_faults;
    first [ left; reflexivity
          | right; split; [apply percent_to_scalar_in_unit | reflexivity] ].
Qed.

(** X4: the volume handlers saturate.  When the percent read plus five is
    not below 100 the volume-up handler writes exactly 1.0, and when the
    percent read minus five is not above 0 the volume-down handler writes
    exactly 0.0. *)
Theorem hotkey_steps_saturate (w : Teams3Mute.World) :
  works (Teams3Mute.mic w) ->
  let pct := Teams3Mute._scalar_to_percent (level (Teams3Mute.mic w)) in
  ((pct + Teams3Mute.STEP_PERCENT <? 100.0)%float = false ->
   level (Teams3Mute.mic (exec Teams3Mute.increase_volume w)) = 1.0%float) /\
  ((0.0 <? pct - Teams3Mute.STEP_PERCENT)%float = false ->
   level (Teams3Mute.mic (exec Teams3Mute.decrease_volume w)) = 0.0%float).
Proof.
  intros Hw pct. split; intros H.
  - rewrite (increase_volume_on_working_mic w Hw). cbn [level with_level].
    unfold hotkey_up. fold pct. unfold Py.min at 1. rewrite H. reflexivity.
  - rewrite (decrease_volume_on_working_mic w Hw). cbn [level with_level].
    unfold hotkey_down. fold pct. unfold Py.max at 1. rewrite H. reflexivity.
Qed.

Lemma hotkey_steps_saturate_witness :
  level (Teams3Mute.mic
           (exec Teams3Mute.increase_volume
              (Teams3Mute.mkWorld (endpoint 0.97%float false) 0 [] []))) = 1.0%float /\
  level (Teams3Mute.mic
           (exec Teams3Mute.decrease_volume
              (Teams3Mute.mkWorld (endpoint 0.03%float false) 0 [] []))) = 0.0%float.
Proof.
  split.
  - apply (proj1 (hotkey_steps_saturate
                    (Teams3Mute.mkWorld (endpoint 0.97%float false) 0 [] [])
                    (fun k => eq_refl))).
    reflexivity.
  - apply (proj2 (hotkey_steps_saturate
                    (Teams3Mute.mkWorld (endpoint 0.03%float false) 0 [] [])
                    (fun k => eq_refl))).
    reflexivity.
Defined.

(** ** The master-volume widget, further *)

Section WidgetFacts.
Import MasterAudio.

Lemma lower_ascii_idempotent (c : ascii) :
  Py.lower_ascii (Py.lower_ascii c) = Py.lower_ascii c.
Proof. destruct c as [[] [] [] [] [] [] [] []]; reflexivity. Qed.

Lemma lower_idempotent (s : string) : Py.lower (Py.lower s) = Py.lower s.
Proof.
  induction s as [|c s IH]; [reflexivity|].
  cbn [Py.lower]. rewrite lower_ascii_idempotent, IH. reflexivity.
Qed.

End WidgetFacts.

(** X5: [key_press] handles exactly three keys.  The Up and Down arrows step
    the volume by +0.05 and -0.05 whatever text comes with them; otherwise
    the letter M, in either case, toggles mute; these return True.  Every
    other key returns False and leaves the whole state as it was. *)
Theorem key_press_dispatch (keycode : Z) (codepoint : option string) (a : MasterAudio.App) :
  (keycode = 273%Z ->
   MasterAudio.key_press keycode codepoint a
   = (Ok true, exec (MasterAudio.update_volume_from_key MasterAudio.VOLUME_STEP) a)) /\
  (keycode = 274%Z ->
   MasterAudio.key_press keycode codepoint a
   = (Ok true, exec (MasterAudio.update_volume_from_key (- MasterAudio.VOLUME_STEP)%float) a)) /\
  (keycode <> 273%Z -> keycode <> 274%Z -> mute_key codepoint = true ->
   MasterAudio.key_press keycode codepoint a = (Ok true, exec MasterAudio.toggle_mute a)) /\
  (keycode <> 273%Z -> keycode <> 274%Z -> mute_key codepoint = false ->
   MasterAudio.key_press keycode codepoint a = (Ok false, a)) /\
  (forall c, mute_key (Some (Py.lower c)) = mute_key (Some c)).
Proof.
  repeat apply conj.
  - intros ->. unfold MasterAudio.key_press. cbn [Z.eqb Pos.eqb].
    unfold bind. rewrite key_runs. reflexivity.
  - intros ->. unfold MasterAudio.key_press. cbn [Z.eqb Pos.eqb].
    unfold bind. rewrite key_runs. reflexivity.
  - intros H1 H2 Hm. unfold MasterAudio.key_press.
    apply Z.eqb_neq in H1, H2. rewrite H1, H2.
    destruct codepoint as [[|ch rest]|]; try discriminate Hm.
    unfold mute_key in Hm. rewrite Hm. unfold bind. rewrite toggle_runs. reflexivity.
  - intros H1 H2 Hm. unfold MasterAudio.key_press.
    apply Z.eqb_neq in H1, H2. rewrite H1, H2.
    destruct codepoint as [[|ch rest]|]; try reflexivity.
    unfold mute_key in Hm. rewrite Hm. reflexivity.
  - intros c. unfold mute_key. rewrite lower_idempotent. reflexivity.
Qed.

Lemma key_press_dispatch_witness :
  let a := MasterAudio.startup (endpoint 0.5%float false) in
  MasterAudio.key_press 109 (Some "M") a = (Ok true, exec MasterAudio.toggle_mute a) /\
  MasterAudio.key_press 97 (Some "a") a = (Ok false, a).
Proof.
  cbv zeta. split.
  - apply (proj1 (proj2 (proj2 (key_press_dispatch 109 (Some "M")
                                  (MasterAudio.startup (endpoint 0.5%float false))))));
      [discriminate | discriminate | reflexivity].
  - apply (proj1 (proj2 (proj2 (proj2 (key_press_dispatch 97 (Some "a")
                                         (MasterAudio.startup (endpoint 0.5%float false)))))));
      [discriminate | discriminate | reflexivity].
Defined.

(** An assignment that compares equal to the stored level is dropped, so a
    cached negative zero survives a step that computes 0.0. *)
Lemma equal_level_is_not_stored :
  let a := exec (MasterAudio.run (MasterAudio.Slider (-0.0)%float))
             (MasterAudio.startup (endpoint 0.5%float false)) in
  let a' := exec (MasterAudio.update_volume_from_key (-0.05)%float) a in
  signbit (cached_level a) = true /\
  clamp_unit (cached_level a + -0.05)%float = 0.0%float /\
  signbit (cached_level a') = true /\
  Py.eq (cached_level a') 0.0%float = true.
Proof. cbv zeta. repeat split; reflexivity. Qed.

(** X6: the keyboard step alters the sum of cached level and change only
    when it is out of range: a sum strictly between 0 and 1 is stored as it
    is, a sum that is not below 1 (NaN included) is stored as exactly 1.0,
    and for a sum below 1 that is not above 0 the step assigns 0.0, after
    which the cached level equals 0.0: it is 0.0, or the zero the cache
    already held. *)
Theorem keyboard_step_clamps_only_out_of_range (change : float) (a : MasterAudio.App) :
  let sum := (cached_level a + change)%float in
  let a' := exec (MasterAudio.update_volume_from_key change) a in
  ((sum <? 1.0)%float = true -> (0.0 <? sum)%float = true -> cached_level a' = sum) /\
  ((sum <? 1.0)%float = false -> cached_level a' = 1.0%float) /\
  ((sum <? 1.0)%float = true -> (0.0 <? sum)%float = false ->
   cached_level a' = assigned (cached_level a) 0.0%float /\
   Py.eq (cached_level a') 0.0%float = true /\
   (Py.eq (cached_level a) 0.0%float = false -> cached_level a' = 0.0%float)).
Proof.
  cbv zeta. rewrite key_cached_level. unfold clamp_unit, Py.max, Py.min.
  repeat split.
  - intros H1 H2. rewrite H1, H2. unfold assigned.
    destruct (Py.eq (cached_level a) (cached_level a + change)) eqn:E; [|reflexivity].
    apply eq_positive; assumption.
  - intros H1. rewrite H1. change (0 <? 1)%float with true. cbv iota. unfold assigned.
    destruct (Py.eq (cached_level a) 1) eqn:E; [|reflexivity].
    apply eq_one; exact E.
  - rewrite H, H0. reflexivity.
  - rewrite H, H0. apply assigned_eq. reflexivity.
  - rewrite H, H0. intros E. unfold assigned. rewrite E. reflexivity.
Qed.

Lemma keyboard_step_clamps_only_out_of_range_witness :
  let a := MasterAudio.startup (endpoint 0.25%float false) in
  cached_level (exec (MasterAudio.update_volume_from_key 0.5%float) a) = 0.75%float /\
  cached_level (exec (MasterAudio.update_volume_from_key 0.9%float) a) = 1.0%float /\
  cached_level (exec (MasterAudio.update_volume_from_key (-0.5)%float) a) = 0.0%float.
Proof.
  cbv zeta.
  pose proof (keyboard_step_clamps_only_out_of_range 0.5%float
                (MasterAudio.startup (endpoint 0.25%float false))) as (H1 & _ & _).
  pose proof (keyboard_step_clamps_only_out_of_range 0.9%float
                (MasterAudio.startup (endpoint 0.25%float false))) as (_ & H2 & _).
  pose proof (keyboard_step_clamps_only_out_of_range (-0.5)%float
                (MasterAudio.startup (endpoint 0.25%float false))) as (_ & _ & H3).
  split; [|split].
  - rewrite (H1 eq_refl eq_refl). reflexivity.
  - exact (H2 eq_refl).
  - rewrite (proj1 (H3 eq_refl eq_refl)). reflexivity.
Defined.

(** X7: polling is idempotent.  With the backend as it is, in any state and
    under any fault, a second poll right after a poll changes nothing. *)
Theorem poll_twice_is_poll_once (a : MasterAudio.App) :
  exec MasterAudio.check_external_change (exec MasterAudio.check_external_change a)
  = exec MasterAudio.check_external_change a.
Proof. destruct_app a; master_red; split_master; reflexivity. Qed.

(** A value that is not a number keeps the chain of observers going until
    the interpreter gives up; on a working connection every round has
    stored the value and handed it to the backend. *)
Lemma gui_at_not_a_number (depth : nat) (value : float) (a : MasterAudio.App) :
  Py.eq value value = false ->
  connected a ->
  fault (MasterAudio.device (MasterAudio.env a)) mSetMasterVolumeLevelScalar = None ->
  let a1 := exec (MasterAudio.update_volume_from_gui_at (S depth) value) a in
  cached_level a1 = value /\
  MasterAudio.env a1
  = MasterAudio.mkEnv (MasterAudio.VOLUME_INTERFACE (MasterAudio.env a))
      (with_level value (MasterAudio.device (MasterAudio.env a)))
      (MasterAudio.stdout (MasterAudio.env a)).
Proof.
  intros Hv. revert a. induction depth as [|depth IH]; intros a Hc Hs;
    destruct a as [[i d out] w]; destruct w; unfold connected in Hc;
    cbn [MasterAudio.VOLUME_INTERFACE MasterAudio.env MasterAudio.device] in Hc, Hs; subst i.
  - cbn [MasterAudio.update_volume_from_gui_at]. master_red.
    rewrite Hs. master_red. rewrite Nat.eqb_refl. master_red.
    repeat (rewrite (not_number_eq _ value Hv); master_red). split; reflexivity.
  - change (MasterAudio.update_volume_from_gui_at (S (S depth)) value)
      with (MasterAudio.io (MasterAudio.set_volume_scalar value) ;;
            MasterAudio.assign_volume_scalar_with
              (MasterAudio.update_volume_from_gui_at (S depth)) value ;;
            MasterAudio.assign_status_text
              ("Volume set via Slider: " ++ Py.format_0f (value * 100)%float ++ "%")).
    master_red. rewrite Hs. master_red. rewrite Nat.eqb_refl. master_red.
    repeat (rewrite (not_number_eq _ value Hv); master_red).
    match goal with
    | |- context [MasterAudio.update_volume_from_gui_at (S depth) value ?s] =>
        destruct (IH s eq_refl Hs) as [H1 H2]; unfold exec, cached_level in H1, H2;
        destruct (MasterAudio.update_volume_from_gui_at (S depth) value s)
          as [[[]|e] [e' w']];
        destruct w'; cbn [snd MasterAudio.env MasterAudio.self MasterAudio.volume_scalar
                            MasterAudio.VOLUME_INTERFACE MasterAudio.device
                            MasterAudio.stdout with_level level muted generation fault]
          in H1, H2; subst; split; reflexivity
    end.
Qed.

Section LevelJustSet.
Import MasterAudio.

Lemma poll_cached_level (a : App) :
  connected a ->
  fault (device (env a)) mGetMasterVolumeLevelScalar = None ->
  cached_level (exec check_external_change a)
  = (if Py.gt (abs (cached_level a - backend_level a))%float 0.005%float
     then backend_level a else cached_level a).
Proof.
  destruct a as [[i d out] w]; destruct w. unfold connected.
  cbn [VOLUME_INTERFACE env device]. intros -> Hg.
  master_red; split_master; reflexivity.
Qed.

Lemma poll_after_gui (value : float) (a : App) :
  connected a ->
  fault (device (env a)) mSetMasterVolumeLevelScalar = None ->
  fault (device (env a)) mGetMasterVolumeLevelScalar = None ->
  cached_level (exec check_external_change (exec (update_volume_from_gui value) a))
  = assigned (cached_level a) value.
Proof.
  intros Hc Hs Hg. destruct (Py.eq value value) eqn:Hv.
  - revert Hc Hs Hg. destruct a as [[i d out] w]; destruct w. unfold connected.
    cbn [VOLUME_INTERFACE env device]. intros -> Hs Hg.
    master_red; split_master; reflexivity.
  - destruct (gui_at_not_a_number 999 value a Hv Hc Hs) as [H1 H2].
    change (update_volume_from_gui_at 1000 value) with (update_volume_from_gui value) in H1, H2.
    rewrite poll_cached_level.
    + unfold backend_level at 1 2. rewrite H1, H2. cbn [device level with_level].
      rewrite gt_abs_sub_self. unfold assigned.
      rewrite (not_number_eq _ value Hv). reflexivity.
    + unfold connected. rewrite H2. cbn [VOLUME_INTERFACE device generation with_level].
      exact Hc.
    + rewrite H2. cbn [device fault with_level]. exact Hg.
Qed.

End LevelJustSet.

(** X8: a level just set is not disturbed by the next poll.  On a connection
    whose level getter and setter work, after the slider's handler or the
    keyboard step assigned a level, a poll leaves the cached level as that
    assignment left it: the value, or the equal level the cache already
    held. *)
Theorem poll_keeps_level_just_set (a : MasterAudio.App) :
  connected a ->
  fault (MasterAudio.device (MasterAudio.env a)) mSetMasterVolumeLevelScalar = None ->
  fault (MasterAudio.device (MasterAudio.env a)) mGetMasterVolumeLevelScalar = None ->
  (forall value,
      cached_level (exec MasterAudio.check_external_change
                      (exec (MasterAudio.update_volume_from_gui value) a))
      = assigned (cached_level a) value) /\
  (forall change,
      cached_level (exec MasterAudio.check_external_change
                      (exec (MasterAudio.update_volume_from_key change) a))
      = assigned (cached_level a) (clamp_unit (cached_level a + change)%float)).
Proof.
  intros Hc Hs Hg. split.
  - intros value. apply poll_after_gui; assumption.
  - revert Hc Hs Hg. destruct a as [[i d out] w]; destruct w. unfold connected.
    cbn [MasterAudio.VOLUME_INTERFACE MasterAudio.env MasterAudio.device].
    intros -> Hs Hg change. master_red; split_master; reflexivity.
Qed.

Lemma poll_keeps_level_just_set_witness :
  let a := MasterAudio.startup (endpoint 0.5%float false) in
  cached_level (exec MasterAudio.check_external_change
                  (exec (MasterAudio.update_volume_from_gui 0.3%float) a)) = 0.3%float.
Proof.
  cbv zeta.
  rewrite (proj1 (poll_keeps_level_just_set (MasterAudio.startup (endpoint 0.5%float false))
                    eq_refl eq_refl eq_refl) 0.3%float).
  reflexivity.
Defined.

(** X9: the state built at start-up is already reconciled.  Start-up never
    changes the device, on a working device the cache is the device state
    and the interface is the live one, and, whatever the device does, a poll
    right after start-up changes nothing. *)
Theorem startup_state_is_reconciled (d : Device) :
  MasterAudio.device (MasterAudio.env (MasterAudio.startup d)) = d /\
  exec MasterAudio.check_external_change (MasterAudio.startup d) = MasterAudio.startup d /\
  (works d ->
   connected (MasterAudio.startup d) /\
   cached_level (MasterAudio.startup d) = level d /\
   cached_mute (MasterAudio.startup d) = muted d /\
   MasterAudio.stdout (MasterAudio.env (MasterAudio.startup d)) = []).
Proof.
  unfold MasterAudio.startup, MasterAudio.load, MasterAudio.new_widget,
    MasterAudio.get_volume_interface.
  repeat apply conj.
  - master_red; split_master; reflexivity.
  - master_red; split_master; reflexivity.
  - intros Hw. master_red. split_master; repeat split; reflexivity.
Qed.

Lemma startup_state_is_reconciled_witness :
  cached_level (MasterAudio.startup (endpoint 0.35%float true)) = 0.35%float /\
  cached_mute (MasterAudio.startup (endpoint 0.35%float true)) = true.
Proof.
  destruct (proj2 (proj2 (startup_state_is_reconciled (endpoint 0.35%float true)))
              (fun k => eq_refl)) as (_ & Hl & Hm & _).
  split; assumption.
Defined.

(** X10: the mute button drives the backend from the cache.  On a connection
    whose mute setter works, after [toggle_mute] the backend flag and the
    cached flag are both the negation of the flag cached before, whatever
    flag the backend held. *)
Theorem toggle_mute_aligns_backend (a : MasterAudio.App) :
  connected a ->
  fault (MasterAudio.device (MasterAudio.env a)) mSetMute = None ->
  let a' := exec MasterAudio.toggle_mute a in
  cached_mute a' = negb (cached_mute a) /\
  backend_mute a' = negb (cached_mute a) /\
  backend_level a' = backend_level a.
Proof.
  destruct a as [[i d out] w]; destruct w. unfold connected.
  cbn [MasterAudio.VOLUME_INTERFACE MasterAudio.env MasterAudio.device].
  intros -> Hs. master_red. split_master. all: repeat split; reflexivity.
Qed.

Lemma toggle_mute_aligns_backend_witness :
  let a := external (endpoint 0.5%float true)
             (MasterAudio.startup (endpoint 0.5%float false)) in
  backend_mute a = true /\ cached_mute a = false /\
  backend_mute (exec MasterAudio.toggle_mute a) = true.
Proof.
  cbv zeta. split; [reflexivity|]. split; [reflexivity|].
  exact (proj1 (proj2 (toggle_mute_aligns_backend
                         (external (endpoint 0.5%float true)
                            (MasterAudio.startup (endpoint 0.5%float false)))
                         eq_refl eq_refl))).
Defined.

(** ** The microphone display, further *)

Lemma scalar_to_percent_in_percent (s : float) :
  in_percent (Teams3MicKivy._scalar_to_percent s).
Proof.
  unfold Teams3MicKivy._scalar_to_percent, Py.max, Py.min.
  destruct (s * 100 <? 100)%float eqn:Hhi.
  - destruct (0 <? s * 100)%float eqn:Hlo.
    + split; unfold Py.le; apply ltb_leb; assumption.
    + split; reflexivity.
  - change (0 <? 100)%float with true. cbv iota. split; reflexivity.
Qed.

Ltac split_display :=
  split_more_with ltac:(mic_red) ltac:(fail).

(** X11: the poll of the microphone display only reads.  It never changes
    the device, the COM depth or the console; and with the device as it is
    the display settles after at most two polls: a third poll changes
    nothing, under any fault and with any cached pointer. *)
Theorem display_poll_only_reads (a : Teams3MicKivy.MicApp) :
  let a1 := exec Teams3MicKivy.check_mic_status a in
  let a2 := exec Teams3MicKivy.check_mic_status a1 in
  Teams3MicKivy.mic a1 = Teams3MicKivy.mic a /\
  Teams3MicKivy.com_depth a1 = Teams3MicKivy.com_depth a /\
  Teams3MicKivy.stdout a1 = Teams3MicKivy.stdout a /\
  exec Teams3MicKivy.check_mic_status a2 = a2.
Proof.
  destruct a as [d depth out [h|] l]; cbv zeta; repeat split;
    mic_red; split_display; reflexivity.
Qed.

(** X12: the progress bar never leaves its range.  If its value is within
    [0, 100], it still is after a poll and after each hotkey handler,
    whatever level the device reports. *)
Theorem progress_bar_stays_in_range (a : Teams3MicKivy.MicApp) :
  in_percent (Teams3MicKivy.vol_bar_value (Teams3MicKivy.layout a)) ->
  forall op,
    op = Teams3MicKivy.check_mic_status \/ op = Teams3MicKivy.increase_volume \/
    op = Teams3MicKivy.decrease_volume \/ op = Teams3MicKivy.toggle_mute ->
    in_percent (Teams3MicKivy.vol_bar_value (Teams3MicKivy.layout (exec op a))).
Proof.
  destruct a as [d depth out c l]. cbn [Teams3MicKivy.layout]. intros Hl op Hop.
  destruct Hop as [-> | [-> | [-> | ->]]].
  - destruct c as [h|]; mic_red; split_display;
      cbn [Teams3MicKivy.vol_bar_value];
      first [exact Hl | apply scalar_to_percent_in_percent].
  - mic_red; split_display; exact Hl.
  - mic_red; split_display; exact Hl.
  - mic_red; split_display; exact Hl.
Qed.

Lemma progress_bar_stays_in_range_witness :
  let a := exec Teams3MicKivy.on_start (Teams3MicKivy.launch (endpoint 1.5%float false)) in
  in_percent (Teams3MicKivy.vol_bar_value
                (Teams3MicKivy.layout (exec Teams3MicKivy.check_mic_status a))).
Proof.
  cbv zeta.
  apply (progress_bar_stays_in_range
           (exec Teams3MicKivy.on_start (Teams3MicKivy.launch (endpoint 1.5%float false)))).
  - split; reflexivity.
  - left; reflexivity.
Defined.

(** X13: the hotkey handlers of the two scripts do the same to the
    microphone.  From the same device state, faults included, each handler
    of the display script leaves the device exactly as the handler of the
    same name in the plain hotkey script does. *)
Theorem hotkey_variants_agree (a : Teams3MicKivy.MicApp) (w : Teams3Mute.World) :
  Teams3MicKivy.mic a = Teams3Mute.mic w ->
  Teams3MicKivy.mic (exec Teams3MicKivy.increase_volume a)
  = Teams3Mute.mic (exec Teams3Mute.increase_volume w) /\
  Teams3MicKivy.mic (exec Teams3MicKivy.decrease_volume a)
  = Teams3Mute.mic (exec Teams3Mute.decrease_volume w) /\
  Teams3MicKivy.mic (exec Teams3MicKivy.toggle_mute a)
  = Teams3Mute.mic (exec Teams3Mute.toggle_mute w).
Proof.
  destruct a as [d depth out c l], w as [d' depth' out' err'].
  cbn [Teams3MicKivy.mic Teams3Mute.mic]. intros <-.
  repeat split; mic_red; hotkey_red;
    split_more_with ltac:(mic_red; hotkey_red) ltac:(fail); reflexivity.
Qed.

Lemma hotkey_variants_agree_witness :
  Teams3MicKivy.mic
    (exec Teams3MicKivy.increase_volume
       (Teams3MicKivy.launch (endpoint 0.2%float false)))
  = Teams3Mute.mic
      (exec Teams3Mute.increase_volume
         (Teams3Mute.mkWorld (endpoint 0.2%float false) 0 [] [])).
Proof.
  exact (proj1 (hotkey_variants_agree
                  (Teams3MicKivy.launch (endpoint 0.2%float false))
                  (Teams3Mute.mkWorld (endpoint 0.2%float false) 0 [] [])
                  eq_refl)).
Defined.

(** X14: a hotkey handler of the display script works on a connection of
    its own.  It gives back the COM initialisation it takes, and it never
    touches the cached interface or the widgets, whether it succeeds or
    raises inside. *)
Theorem display_hotkeys_are_self_contained (a : Teams3MicKivy.MicApp) :
  forall op,
    op = Teams3MicKivy.increase_volume \/ op = Teams3MicKivy.decrease_volume \/
    op = Teams3MicKivy.toggle_mute ->
    let a' := exec op a in
    Teams3MicKivy.com_depth a' = Teams3MicKivy.com_depth a /\
    Teams3MicKivy.cached_interface a' = Teams3MicKivy.cached_interface a /\
    Teams3MicKivy.layout a' = Teams3MicKivy.layout a /\
    exists line, Teams3MicKivy.stdout a' = (Teams3MicKivy.stdout a ++ [line])%list.
Proof.
  destruct a as [d depth out c l].
  intros op [-> | [-> | ->]]; mic_red; split_display;
    repeat split; try reflexivity; eexists; reflexivity.
Qed.

Lemma display_hotkeys_are_self_contained_witness :
  let a := exec Teams3MicKivy.on_start (Teams3MicKivy.launch (endpoint 0.5%float false)) in
  Teams3MicKivy.cached_interface (exec Teams3MicKivy.toggle_mute a) = Some 0.
Proof.
  cbv zeta.
  rewrite (proj1 (proj2 (display_hotkeys_are_self_contained
                           (exec Teams3MicKivy.on_start
                              (Teams3MicKivy.launch (endpoint 0.5%float false)))
                           Teams3MicKivy.toggle_mute (or_intror (or_intror eq_refl))))).
  reflexivity.
Defined.

(** X15: start and stop of the display.  [on_start] never raises and takes
    one COM initialisation; it caches an interface of the current device
    generation when enumerator creation and activation work and caches none
    when activation raises.  [on_stop] after [on_start] gives the COM
    initialisation back and drops the interface; the device and the widgets
    are as before. *)
Theorem display_start_and_stop (a : Teams3MicKivy.MicApp) :
  let a1 := exec Teams3MicKivy.on_start a in
  let a2 := exec Teams3MicKivy.on_stop a1 in
  eval Teams3MicKivy.on_start a = Some tt /\
  Teams3MicKivy.com_depth a1 = S (Teams3MicKivy.com_depth a) /\
  (fault (Teams3MicKivy.mic a) mCreateObject = None ->
   fault (Teams3MicKivy.mic a) mActivate = None ->
   Teams3MicKivy.cached_interface a1 = Some (generation (Teams3MicKivy.mic a))) /\
  (forall msg,
      fault (Teams3MicKivy.mic a) mActivate = Some msg ->
      Teams3MicKivy.cached_interface a1 = None) /\
  Teams3MicKivy.com_depth a2 = Teams3MicKivy.com_depth a /\
  Teams3MicKivy.cached_interface a2 = None /\
  Teams3MicKivy.mic a2 = Teams3MicKivy.mic a /\
  Teams3MicKivy.layout a2 = Teams3MicKivy.layout a.
Proof.
  destruct a as [d depth out c l]. cbv zeta.
  cbn [Teams3MicKivy.mic Teams3MicKivy.com_depth Teams3MicKivy.layout].
  repeat apply conj; try intros ? ?; try intros ?;
    mic_red; split_display; try reflexivity; try discriminate.
Qed.

Lemma display_start_and_stop_witness :
  Teams3MicKivy.cached_interface
    (exec Teams3MicKivy.on_start (Teams3MicKivy.launch (endpoint 0.5%float false))) = Some 0 /\
  Teams3MicKivy.cached_interface
    (exec Teams3MicKivy.on_start
       (Teams3MicKivy.launch (broken 0.5%float false "no microphone"))) = None.
Proof.
  split.
  - exact (proj1 (proj2 (proj2 (display_start_and_stop
                                  (Teams3MicKivy.launch (endpoint 0.5%float false)))))
             eq_refl eq_refl).
  - exact (proj1 (proj2 (proj2 (proj2 (display_start_and_stop
             (Teams3MicKivy.launch (broken 0.5%float false "no microphone"))))))
             "no microphone" eq_refl).
Defined.

(** ** Hotkey registration and the main block *)

Section MainFacts.
Import Teams3MuteMain.

(** A handler run inside the process returns, keeps the COM depth and
    touches nothing but the world. *)
Lemma handler_runs (w : Teams3Mute.World) :
  (Teams3Mute.increase_volume w = (Ok tt, exec Teams3Mute.increase_volume w) /\
   Teams3Mute.com_depth (exec Teams3Mute.increase_volume w) = Teams3Mute.com_depth w) /\
  (Teams3Mute.decrease_volume w = (Ok tt, exec Teams3Mute.decrease_volume w) /\
   Teams3Mute.com_depth (exec Teams3Mute.decrease_volume w) = Teams3Mute.com_depth w) /\
  (Teams3Mute.toggle_mute w = (Ok tt, exec Teams3Mute.toggle_mute w) /\
   Teams3Mute.com_depth (exec Teams3Mute.toggle_mute w) = Teams3Mute.com_depth w).
Proof.
  destruct w as [d depth out err].
  repeat split; hotkey_red; split_faults; reflexivity.
Qed.

Lemma call_keeps_armed (depth : nat) (cb : Callback) (p : Process) :
  armed depth p ->
  fst (call cb p) = Ok tt /\
  armed depth (exec (call cb) p) /\
  unhook_fault (exec (call cb) p) = unhook_fault p /\
  stop_event (exec (call cb) p)
  = (stop_event p || match cb with cb_quit_program => true | _ => false end)%bool.
Proof.
  destruct p as [w hs st uf]. unfold armed. cbn [world hotkeys stop_event unhook_fault].
  intros (Hd & Hs & Ht).
  destruct (handler_runs w) as ((Ri & Ci) & (Rd & Cd) & (Rt & Ct)).
  destruct cb; cbn [call].
  - unfold in_world, zoom, exec. cbn [world]. rewrite Ri. cbn [fst snd world hotkeys
      stop_event unhook_fault]. rewrite orb_false_r.
    repeat split; try assumption. rewrite Ci. exact Hd.
  - unfold in_world, zoom, exec. cbn [world]. rewrite Rd. cbn [fst snd world hotkeys
      stop_event unhook_fault]. rewrite orb_false_r.
    repeat split; try assumption. rewrite Cd. exact Hd.
  - unfold in_world, zoom, exec. cbn [world]. rewrite Rt. cbn [fst snd world hotkeys
      stop_event unhook_fault]. rewrite orb_false_r.
    repeat split; try assumption. rewrite Ct. exact Hd.
  - main_red. destruct uf as [msg|]; cbn [fst snd]; rewrite orb_true_r;
      repeat split; try assumption; try discriminate; try reflexivity.
Qed.

Lemma call_all_keeps_armed (depth : nat) (cbs : list Callback) (p : Process) :
  armed depth p ->
  fst (call_all cbs p) = Ok tt /\
  armed depth (exec (call_all cbs) p) /\
  unhook_fault (exec (call_all cbs) p) = unhook_fault p /\
  stop_event (exec (call_all cbs) p)
  = (stop_event p
     || existsb (fun cb => match cb with cb_quit_program => true | _ => false end) cbs)%bool.
Proof.
  revert p. induction cbs as [|cb cbs IH]; intros p Ha.
  - cbn. rewrite orb_false_r. repeat split; try reflexivity; apply Ha.
  - destruct (call_keeps_armed depth cb p Ha) as (R & A & U & S).
    destruct (IH (exec (call cb) p) A) as (R' & A' & U' & S').
    cbn [call_all existsb]. unfold exec, bind in *.
    destruct (call cb p) as [[[]|e] p1]; cbn [fst snd] in *; [|discriminate R].
    rewrite S', S, U', U.
    split; [exact R'|]. split; [exact A'|]. split; [reflexivity|].
    first [apply orb_assoc | symmetry; apply orb_assoc].
Qed.

Lemma quit_bound_once (combo : string) :
  existsb (fun cb => match cb with cb_quit_program => true | _ => false end)
    (map snd (filter (fun h => String.eqb (fst h) combo) four_bindings))
  = String.eqb "ctrl+alt+q" combo.
Proof.
  unfold four_bindings. cbn [filter fst].
  destruct (String.eqb "ctrl+alt+up" combo), (String.eqb "ctrl+alt+down" combo),
    (String.eqb "ctrl+alt+m" combo), (String.eqb "ctrl+alt+q" combo); reflexivity.
Qed.

Lemma press_keeps_armed (depth : nat) (combo : string) (p : Process) :
  armed depth p -> stop_event p = false ->
  fst (press combo p) = Ok tt /\
  armed depth (exec (press combo) p) /\
  unhook_fault (exec (press combo) p) = unhook_fault p /\
  stop_event (exec (press combo) p) = String.eqb "ctrl+alt+q" combo.
Proof.
  intros Ha Hs. pose proof Ha as (_ & Hh & _). specialize (Hh Hs).
  unfold press, exec, bind, gets. cbn [fst snd]. rewrite Hh.
  destruct (call_all_keeps_armed depth
              (map snd (filter (fun h => String.eqb (fst h) combo) four_bindings)) p Ha)
    as (R & A & U & S).
  rewrite quit_bound_once, Hs in S. cbn [orb] in S.
  unfold exec in *. split; [exact R|]. split; [exact A|]. split; [exact U | exact S].
Qed.

Lemma wait_loop_press (combo : string) (rest : list Event) (p : Process) :
  stop_event p = false ->
  wait_loop (Press combo :: rest) p
  = match press combo p with
    | (Ok _, p1) => wait_loop rest p1
    | (Raise e, p1) => (Raise e, p1)
    end.
Proof. intros Hs. cbn [wait_loop]. unfold bind, gets. rewrite Hs. reflexivity. Qed.

Lemma wait_loop_interrupt (rest : list Event) (p : Process) :
  stop_event p = false ->
  wait_loop (KeyboardInterrupt :: rest) p
  = (Ok true, exec (print "Interrupted by user; exiting.") p).
Proof. intros Hs. cbn [wait_loop]. unfold bind, gets. rewrite Hs. reflexivity. Qed.

Lemma wait_loop_stopped (events : list Event) (p : Process) :
  stop_event p = true -> wait_loop events p = (Ok true, p).
Proof.
  intros Hs. destruct events as [|e rest]; cbn [wait_loop];
    unfold bind, gets; rewrite Hs; reflexivity.
Qed.

(** The loop is left exactly when one of the events ends it; until then the
    four bindings stay registered, afterwards they are gone when unhooking
    works; the COM depth is what it was; and events behind the one that
    ended the loop are never looked at. *)
Lemma wait_loop_spec (depth : nat) (events : list Event) (p : Process) :
  armed depth p -> stop_event p = false ->
  fst (wait_loop events p) = Ok (existsb ends_wait events) /\
  armed depth (snd (wait_loop events p)) /\
  unhook_fault (snd (wait_loop events p)) = unhook_fault p /\
  (existsb ends_wait events = false -> stop_event (snd (wait_loop events p)) = false) /\
  (forall more,
      existsb ends_wait events = true ->
      wait_loop (events ++ more) p = wait_loop events p).
Proof.
  revert p. induction events as [|ev events IH]; intros p Ha Hs.
  - cbn [wait_loop existsb]. unfold bind, gets. rewrite Hs. cbn [fst snd ret].
    split; [reflexivity|]. split; [exact Ha|]. split; [reflexivity|].
    split; [intros _; exact Hs | intros more H; discriminate H].
  - destruct ev as [combo|].
    + destruct (press_keeps_armed depth combo p Ha Hs) as (R & A & U & S).
      cbn [existsb ends_wait app]. unfold exec in *.
      rewrite !(wait_loop_press _ _ _ Hs).
      destruct (press combo p) as [[[]|e] p1] eqn:Ep; cbn [fst snd] in *; [|discriminate R].
      destruct (String.eqb "ctrl+alt+q" combo) eqn:Eq; cbn [orb].
      * rewrite (wait_loop_stopped events p1 S). cbn [fst snd].
        split; [reflexivity|]. split; [exact A|]. split; [exact U|].
        split; [intros H; discriminate H|].
        intros more _. rewrite (wait_loop_press _ _ _ Hs), Ep.
        apply wait_loop_stopped; exact S.
      * destruct (IH p1 A S) as (R' & A' & U' & N' & M').
        split; [exact R'|]. split; [exact A'|]. split; [rewrite U'; exact U|].
        split; [exact N'|].
        intros more Hm. rewrite (wait_loop_press _ _ _ Hs), Ep. apply (M' more Hm).
    + cbn [existsb ends_wait orb app].
      rewrite !(wait_loop_interrupt _ _ Hs). cbn [fst snd].
      destruct p as [w hs st uf]. destruct Ha as (Hd & Hh & Ht).
      cbn [world hotkeys stop_event unhook_fault] in *.
      split; [reflexivity|]. split.
      { unfold armed. main_red. destruct w. split; [exact Hd|]. split; assumption. }
      split; [reflexivity|]. split; [intros H; discriminate H|].
      intros more _.
      exact (wait_loop_interrupt (events ++ more) (mkProcess w hs st uf) Hs).
Qed.

End MainFacts.

Section MainResults.
Import Teams3MuteMain.

Lemma register_result (p : Process) :
  register_hotkeys p
  = (Ok tt,
     mkProcess (world p)
       (match unhook_fault p with
        | None => four_bindings
        | Some _ => hotkeys p ++ four_bindings
        end)%list
       (stop_event p) (unhook_fault p)).
Proof.
  destruct p as [w hs st [msg|]]; main_red; [|reflexivity].
  rewrite <- !app_assoc. reflexivity.
Qed.

Lemma quit_result (p : Process) :
  quit_program p
  = (Ok tt,
     mkProcess (exec (Teams3Mute.print "Stopping hotkeys (quit requested)...") (world p))
       (match unhook_fault p with None => [] | Some _ => hotkeys p end)
       true (unhook_fault p)).
Proof. destruct p as [w hs st [msg|]]; main_red; reflexivity. Qed.

Lemma press_one (combo : string) (cb : Callback) (p : Process) :
  hotkeys p = four_bindings ->
  map snd (filter (fun h => String.eqb (fst h) combo) four_bindings) = [cb] ->
  press combo p = (call cb ;; ret tt) p.
Proof.
  intros Hh Hf. unfold press, bind at 1, gets. rewrite Hh, Hf. reflexivity.
Qed.

Lemma press_unbound (combo : string) (p : Process) :
  ~ In combo (map fst (hotkeys p)) -> press combo p = (Ok tt, p).
Proof.
  intros Hn. unfold press, bind, gets.
  assert (E : filter (fun h : string * Callback => String.eqb (fst h) combo) (hotkeys p) = []).
  { induction (hotkeys p) as [|[c cb] hs IH]; [reflexivity|].
    cbn [filter fst]. cbn [map fst In] in Hn.
    destruct (String.eqb_spec c combo) as [->|_].
    - exfalso. apply Hn. left. reflexivity.
    - apply IH. intros H. apply Hn. right. exact H. }
  rewrite E. reflexivity.
Qed.

Lemma initial_report_runs (w : Teams3Mute.World) :
  initial_report w = (Ok tt, exec initial_report w) /\
  Teams3Mute.mic (exec initial_report w) = Teams3Mute.mic w /\
  Teams3Mute.com_depth (exec initial_report w) = Teams3Mute.com_depth w /\
  Teams3Mute.stderr (exec initial_report w) = Teams3Mute.stderr w /\
  exists line,
    Teams3Mute.stdout (exec initial_report w) = (Teams3Mute.stdout w ++ [line])%list.
Proof.
  destruct w as [d depth out err]. unfold initial_report.
  hotkey_red; split_faults; repeat split; try reflexivity; eexists; reflexivity.
Qed.

Lemma last_line_snoc (out : list string) (line : string) :
  last_line (out ++ [line]) = Some line.
Proof. unfold last_line. rewrite rev_unit. reflexivity. Qed.

End MainResults.

(** X16: [register_hotkeys] never raises and touches nothing but the
    registrations.  When unhooking works it leaves exactly the four bindings
    whatever was registered before, so registering again changes nothing;
    when unhooking raises, the four bindings are added behind the ones
    already there. *)
Theorem register_hotkeys_is_idempotent (p : Teams3MuteMain.Process) :
  let p1 := exec Teams3MuteMain.register_hotkeys p in
  eval Teams3MuteMain.register_hotkeys p = Some tt /\
  Teams3MuteMain.world p1 = Teams3MuteMain.world p /\
  Teams3MuteMain.stop_event p1 = Teams3MuteMain.stop_event p /\
  (Teams3MuteMain.unhook_fault p = None ->
   Teams3MuteMain.hotkeys p1 = four_bindings /\
   exec Teams3MuteMain.register_hotkeys p1 = p1) /\
  (forall msg,
      Teams3MuteMain.unhook_fault p = Some msg ->
      Teams3MuteMain.hotkeys p1 = (Teams3MuteMain.hotkeys p ++ four_bindings)%list).
Proof.
  cbv zeta. unfold eval, exec. rewrite register_result. cbn [fst snd].
  repeat apply conj; try reflexivity.
  - intros H. rewrite H. split; [reflexivity|].
    rewrite register_result. reflexivity.
  - intros msg H. rewrite H. reflexivity.
Qed.

Lemma register_hotkeys_is_idempotent_witness :
  let p := Teams3MuteMain.mkProcess (Teams3Mute.mkWorld (endpoint 0.5%float false) 0 [] [])
             [("ctrl+alt+up", Teams3MuteMain.cb_increase_volume)] false None in
  Teams3MuteMain.hotkeys (exec Teams3MuteMain.register_hotkeys p) = four_bindings.
Proof.
  cbv zeta.
  exact (proj1 (proj1 (proj2 (proj2 (proj2 (register_hotkeys_is_idempotent
    (Teams3MuteMain.mkProcess (Teams3Mute.mkWorld (endpoint 0.5%float false) 0 [] [])
       [("ctrl+alt+up", Teams3MuteMain.cb_increase_volume)] false None))))) eq_refl)).
Defined.

(** X17: one press, one step.  With the four bindings registered, a press
    of Ctrl+Alt+Up runs [increase_volume] once, Ctrl+Alt+Down runs
    [decrease_volume] once and Ctrl+Alt+M runs [toggle_mute] once, each
    changing nothing but the handlers' world; a press of a combination that
    is not registered changes nothing. *)
Theorem one_press_runs_one_handler (p : Teams3MuteMain.Process) :
  Teams3MuteMain.hotkeys p = four_bindings ->
  exec (Teams3MuteMain.press "ctrl+alt+up") p
  = with_world (exec Teams3Mute.increase_volume (Teams3MuteMain.world p)) p /\
  exec (Teams3MuteMain.press "ctrl+alt+down") p
  = with_world (exec Teams3Mute.decrease_volume (Teams3MuteMain.world p)) p /\
  exec (Teams3MuteMain.press "ctrl+alt+m") p
  = with_world (exec Teams3Mute.toggle_mute (Teams3MuteMain.world p)) p /\
  (forall combo,
      ~ In combo (map fst four_bindings) ->
      exec (Teams3MuteMain.press combo) p = p).
Proof.
  intros Hh.
  destruct (handler_runs (Teams3MuteMain.world p)) as ((Ri & _) & (Rd & _) & (Rt & _)).
  repeat apply conj.
  - unfold exec at 1. rewrite (press_one "ctrl+alt+up" Teams3MuteMain.cb_increase_volume p Hh eq_refl).
    destruct p as [w hs st uf]. cbn [Teams3MuteMain.world] in Ri.
    unfold bind, Teams3MuteMain.call, Teams3MuteMain.in_world, zoom.
    cbn [Teams3MuteMain.world]. rewrite Ri. reflexivity.
  - unfold exec at 1. rewrite (press_one "ctrl+alt+down" Teams3MuteMain.cb_decrease_volume p Hh eq_refl).
    destruct p as [w hs st uf]. cbn [Teams3MuteMain.world] in Rd.
    unfold bind, Teams3MuteMain.call, Teams3MuteMain.in_world, zoom.
    cbn [Teams3MuteMain.world]. rewrite Rd. reflexivity.
  - unfold exec at 1. rewrite (press_one "ctrl+alt+m" Teams3MuteMain.cb_toggle_mute p Hh eq_refl).
    destruct p as [w hs st uf]. cbn [Teams3MuteMain.world] in Rt.
    unfold bind, Teams3MuteMain.call, Teams3MuteMain.in_world, zoom.
    cbn [Teams3MuteMain.world]. rewrite Rt. reflexivity.
  - intros combo Hn. unfold exec. rewrite press_unbound; [reflexivity|].
    rewrite Hh. exact Hn.
Qed.

Lemma one_press_runs_one_handler_witness :
  let p := exec Teams3MuteMain.register_hotkeys
             (Teams3MuteMain.launch (endpoint 0.2%float false) None) in
  level (Teams3Mute.mic (Teams3MuteMain.world
                           (exec (Teams3MuteMain.press "ctrl+alt+up") p))) = 0.25%float.
Proof.
  cbv zeta.
  rewrite (proj1 (one_press_runs_one_handler
                    (exec Teams3MuteMain.register_hotkeys
                       (Teams3MuteMain.launch (endpoint 0.2%float false) None))
                    eq_refl)).
  reflexivity.
Defined.

(** X18: [quit_program] never raises, sets [stop_event] and leaves the
    microphone alone; when unhooking works no binding is left, and from then
    on a press of any combination changes nothing. *)
Theorem quit_program_disarms (p : Teams3MuteMain.Process) :
  let p1 := exec Teams3MuteMain.quit_program p in
  eval Teams3MuteMain.quit_program p = Some tt /\
  Teams3MuteMain.stop_event p1 = true /\
  Teams3Mute.mic (Teams3MuteMain.world p1) = Teams3Mute.mic (Teams3MuteMain.world p) /\
  (Teams3MuteMain.unhook_fault p = None ->
   Teams3MuteMain.hotkeys p1 = [] /\
   forall combo, exec (Teams3MuteMain.press combo) p1 = p1).
Proof.
  cbv zeta. unfold eval, exec. rewrite quit_result. cbn [fst snd].
  repeat apply conj; try reflexivity.
  intros H. rewrite H. split; [reflexivity|].
  intros combo. rewrite press_unbound; [reflexivity|]. intros [].
Qed.

Lemma quit_program_disarms_witness :
  let p := exec Teams3MuteMain.register_hotkeys
             (Teams3MuteMain.launch (endpoint 0.2%float false) None) in
  let p1 := exec Teams3MuteMain.quit_program p in
  exec (Teams3MuteMain.press "ctrl+alt+up") p1 = p1.
Proof.
  cbv zeta.
  exact (proj2 (proj2 (proj2 (proj2 (quit_program_disarms
           (exec Teams3MuteMain.register_hotkeys
              (Teams3MuteMain.launch (endpoint 0.2%float false) None))))) eq_refl)
           "ctrl+alt+up").
Defined.

Section MainBlock.
Import Teams3MuteMain.

Lemma waiting_is_armed (d : Device) (uf : option string) :
  armed 0 (waiting d uf) /\ stop_event (waiting d uf) = false /\
  unhook_fault (waiting d uf) = uf.
Proof.
  unfold armed, waiting. cbn [world hotkeys stop_event unhook_fault].
  repeat split; try discriminate.
  destruct (initial_report_runs
              (exec (Teams3Mute.print "Registering hotkeys...") (Teams3Mute.mkWorld d 0 [] [])))
    as (_ & _ & Hc & _).
  change (Teams3Mute.com_depth
            (exec initial_report
               (exec (Teams3Mute.print "Registering hotkeys...")
                  (Teams3Mute.mkWorld d 0 [] []))) = 0).
  rewrite Hc. reflexivity.
Qed.

Lemma main_unfold (d : Device) (uf : option string) (events : list Event) :
  main events (launch d uf)
  = match wait_loop events (waiting d uf) with
    | (Ok true, q) => (Ok true, cleaned_up q)
    | (Ok false, q) => (Ok false, q)
    | (Raise e, q) => (Raise e, q)
    end.
Proof.
  pose proof (proj1 (initial_report_runs
              (exec (Teams3Mute.print "Registering hotkeys...")
                 (Teams3Mute.mkWorld d 0 [] [])))) as Hr.
  unfold main, launch, waiting, cleaned_up.
  unfold bind at 1. unfold print at 1, in_world at 1, zoom at 1.
  cbn [world hotkeys stop_event unhook_fault].
  change (Teams3Mute.print "Registering hotkeys..." (Teams3Mute.mkWorld d 0 [] []))
    with (Ok tt, exec (Teams3Mute.print "Registering hotkeys...") (Teams3Mute.mkWorld d 0 [] [])).
  cbv iota beta.
  unfold bind at 1. rewrite register_result.
  cbn [world hotkeys stop_event unhook_fault].
  unfold bind at 1. unfold in_world at 1, zoom at 1.
  cbn [world hotkeys stop_event unhook_fault]. rewrite Hr.
  cbv iota beta.
  unfold bind at 1. unfold print at 1, in_world at 1, zoom at 1.
  cbn [world hotkeys stop_event unhook_fault].
  match goal with
  | |- context [Teams3Mute.print ?l ?w] =>
      change (Teams3Mute.print l w) with (Ok tt, exec (Teams3Mute.print l) w)
  end.
  cbv iota beta.
  replace (match uf with Some _ => ([] ++ four_bindings)%list | None => four_bindings end)
    with four_bindings by (destruct uf; reflexivity).
  unfold bind at 1.
  destruct (wait_loop events _) as [[[|]|e] q]; [|reflexivity|reflexivity].
  destruct q as [w hs st [m|]]; main_red; reflexivity.
Qed.

End MainBlock.

(** X19: the main block of the hotkey script.  Fed with the events that
    arrive while it waits, it leaves its loop exactly when one of them is a
    press of Ctrl+Alt+Q or an interrupt.  It never raises and always ends
    with the COM depth it started with.  While it still waits the four
    bindings are registered; once the loop is left the last line printed is
    the exit message and, when unhooking works, no binding remains. *)
Theorem main_block_cleans_up (d : Device) (uf : option string)
    (events : list Teams3MuteMain.Event) :
  let p0 := Teams3MuteMain.launch d uf in
  let final := exec (Teams3MuteMain.main events) p0 in
  eval (Teams3MuteMain.main events) p0 = Some (existsb ends_wait events) /\
  Teams3Mute.com_depth (Teams3MuteMain.world final) = 0 /\
  (existsb ends_wait events = false ->
   Teams3MuteMain.hotkeys final = four_bindings /\
   Teams3MuteMain.stop_event final = false) /\
  (existsb ends_wait events = true ->
   last_line (Teams3Mute.stdout (Teams3MuteMain.world final)) = Some "Exited mic hotkeys." /\
   (uf = None -> Teams3MuteMain.hotkeys final = [])).
Proof.
  cbv zeta. unfold eval, exec. rewrite main_unfold.
  destruct (waiting_is_armed d uf) as (Ha & Hs & Hu).
  destruct (wait_loop_spec 0 events (waiting d uf) Ha Hs) as (R & A & U & N & _).
  destruct (Teams3MuteMain.wait_loop events (waiting d uf)) as [[b|e] q];
    cbn [fst snd] in *; [|discriminate R].
  injection R as R. subst b.
  destruct (existsb ends_wait events) eqn:E; cbn [fst snd].
  - split; [reflexivity|].
    destruct q as [[dq depth out err] hs st ufq].
    destruct A as (Hd & _ & _). cbn [Teams3MuteMain.world Teams3Mute.com_depth
      Teams3MuteMain.unhook_fault] in Hd, U.
    split; [destruct ufq; exact Hd|].
    split; [intros H; discriminate H|]. intros _. split.
    + unfold cleaned_up. destruct ufq; main_red; apply last_line_snoc.
    + intros ->. rewrite Hu in U. subst ufq. reflexivity.
  - split; [reflexivity|]. destruct A as (Hd & Hh & _).
    split; [exact Hd|]. split; [|intros H; discriminate H].
    intros _. split; [apply Hh; apply N; reflexivity | apply N; reflexivity].
Qed.

Lemma main_block_cleans_up_witness :
  let final := exec (Teams3MuteMain.main
                       [Teams3MuteMain.Press "ctrl+alt+up"; Teams3MuteMain.Press "ctrl+alt+q"])
                 (Teams3MuteMain.launch (endpoint 0.2%float false) None) in
  Teams3MuteMain.hotkeys final = [] /\
  level (Teams3Mute.mic (Teams3MuteMain.world final)) = 0.25%float.
Proof.
  cbv zeta. split.
  - exact (proj2 (proj2 (proj2 (proj2 (main_block_cleans_up (endpoint 0.2%float false) None
             [Teams3MuteMain.Press "ctrl+alt+up"; Teams3MuteMain.Press "ctrl+alt+q"])))
             eq_refl) eq_refl).
  - reflexivity.
Defined.

(** X20: nothing that arrives after the loop was left matters.  If one of
    the events ends the wait, appending further events changes neither the
    result nor the final state of the main block. *)
Theorem events_after_the_end_are_ignored (d : Device) (uf : option string)
    (events more : list Teams3MuteMain.Event) :
  existsb ends_wait events = true ->
  Teams3MuteMain.main (events ++ more) (Teams3MuteMain.launch d uf)
  = Teams3MuteMain.main events (Teams3MuteMain.launch d uf).
Proof.
  intros H. rewrite !main_unfold.
  destruct (waiting_is_armed d uf) as (Ha & Hs & _).
  destruct (wait_loop_spec 0 events (waiting d uf) Ha Hs) as (_ & _ & _ & _ & M).
  rewrite (M more H). reflexivity.
Qed.

Lemma events_after_the_end_are_ignored_witness :
  Teams3MuteMain.main
    ([Teams3MuteMain.Press "ctrl+alt+q"] ++ [Teams3MuteMain.Press "ctrl+alt+up"])
    (Teams3MuteMain.launch (endpoint 0.2%float false) None)
  = Teams3MuteMain.main [Teams3MuteMain.Press "ctrl+alt+q"]
      (Teams3MuteMain.launch (endpoint 0.2%float false) None).
Proof.
  exact (events_after_the_end_are_ignored (endpoint 0.2%float false) None
           [Teams3MuteMain.Press "ctrl+alt+q"] [Teams3MuteMain.Press "ctrl+alt+up"] eq_refl).
Defined.

(** X21: the first report of the main block only reads.  It never raises,
    leaves the microphone, the COM depth and stderr as they were and prints
    exactly one line: the rounded percent and the mute flag on a working
    microphone, the message of the exception when activation raises. *)
Theorem initial_report_only_reads (w : Teams3Mute.World) :
  let w' := exec Teams3MuteMain.initial_report w in
  eval Teams3MuteMain.initial_report w = Some tt /\
  Teams3Mute.mic w' = Teams3Mute.mic w /\
  Teams3Mute.com_depth w' = Teams3Mute.com_depth w /\
  Teams3Mute.stderr w' = Teams3Mute.stderr w /\
  (exists line, Teams3Mute.stdout w' = (Teams3Mute.stdout w ++ [line])%list) /\
  (works (Teams3Mute.mic w) ->
   Teams3Mute.stdout w'
   = (Teams3Mute.stdout w
      ++ [("Initial mic volume: "
           ++ Py.format_0f (Teams3Mute._scalar_to_percent (level (Teams3Mute.mic w)))
           ++ "%" ++ "  muted="
           ++ (if muted (Teams3Mute.mic w) then "True" else "False"))%string])%list) /\
  (forall msg,
      fault (Teams3Mute.mic w) mCreateObject = None ->
      fault (Teams3Mute.mic w) mActivate = Some msg ->
      Teams3Mute.stdout w'
      = (Teams3Mute.stdout w ++ [("Could not read initial mic state: " ++ msg)%string])%list).
Proof.
  cbv zeta.
  destruct (initial_report_runs w) as (R & Hm & Hc & He & Hl).
  split; [unfold eval; rewrite R; reflexivity|].
  split; [exact Hm|]. split; [exact Hc|]. split; [exact He|]. split; [exact Hl|].
  destruct w as [d depth out err]. cbn [Teams3Mute.mic Teams3Mute.stdout].
  split.
  - intros Hw. unfold Teams3MuteMain.initial_report. hotkey_red. split_faults; reflexivity.
  - intros msg H1 H2. unfold Teams3MuteMain.initial_report. hotkey_red.
    split_faults; reflexivity.
Qed.

Lemma initial_report_only_reads_witness :
  Teams3Mute.stdout
    (exec Teams3MuteMain.initial_report
       (Teams3Mute.mkWorld (endpoint 0.62%float true) 0 [] []))
  = ["Initial mic volume: 62%  muted=True"].
Proof.
  rewrite (proj1 (proj2 (proj2 (proj2 (proj2 (proj2 (initial_report_only_reads
             (Teams3Mute.mkWorld (endpoint 0.62%float true) 0 [] []))))))) (fun k => eq_refl)).
  reflexivity.
Defined.

(** X22: on the mock nothing the user sets survives a poll.  When the widget
    runs on [MockVolume], a poll clears the cached mute flag and pulls a
    cached level that is more than 0.005 away from 0.5 back to 0.5; the
    device is not involved. *)
Theorem mock_poll_pulls_back (a : MasterAudio.App) :
  MasterAudio.VOLUME_INTERFACE (MasterAudio.env a) = MasterAudio.MockVolume ->
  let a' := exec MasterAudio.check_external_change a in
  cached_mute a' = false /\
  cached_level a' =
    (if Py.gt (abs (cached_level a - 0.5))%float 0.005%float
     then 0.5%float else cached_level a) /\
  MasterAudio.device (MasterAudio.env a') = MasterAudio.device (MasterAudio.env a).
Proof.
  destruct a as [[i d out] w]; destruct w.
  cbn [MasterAudio.VOLUME_INTERFACE MasterAudio.env]. intros ->.
  master_red. split_tests; repeat split; reflexivity.
Qed.

Lemma mock_poll_pulls_back_witness :
  let a := exec (MasterAudio.update_volume_from_gui 0.9%float)
             (MasterAudio.startup (broken 0.2%float false "no audio device")) in
  cached_level a = 0.9%float /\
  cached_level (exec MasterAudio.check_external_change a) = 0.5%float.
Proof.
  cbv zeta. split; [reflexivity|].
  rewrite (proj1 (proj2 (mock_poll_pulls_back
                           (exec (MasterAudio.update_volume_from_gui 0.9%float)
                              (MasterAudio.startup (broken 0.2%float false "no audio device")))
                           eq_refl))).
  reflexivity.
Defined.

(** ** The widgets that follow the properties *)

Section FollowerFacts.
Import MasterAudio.

Lemma toggle_sets_button (a : App) : button_follows (exec toggle_mute a).
Proof. destruct_app a; master_red; split_master; split; reflexivity. Qed.

Lemma run_keeps_button (c : Command) (a : App) :
  command_defined c -> button_follows a -> button_follows (exec (run c) a).
Proof.
  assert (Hkey : forall change, button_follows a ->
                   button_follows (exec (update_volume_from_key change) a)).
  { intros change. destruct_app a; master_red; intros Hb; split_master; exact Hb. }
  destruct c as [value|keycode codepoint| |]; cbn [command_defined]; intros Hc.
  - destruct_app a; master_red; intros Hb; split_master; exact Hb.
  - destruct (key_cases keycode codepoint a) as [E|[E|[E|E]]]; rewrite E; auto.
    intros _. apply toggle_sets_button.
  - intros _. apply toggle_sets_button.
  - destruct_app a; master_red; intros Hb; split_master;
      first [exact Hb | split; reflexivity].
Qed.

Lemma startup_button (d : Device) :
  mute_button_text (self (startup d)) = "Mute (M)" /\
  mute_button_background_color (self (startup d)) = (1, 1, 1, 1)%float.
Proof.
  unfold startup, load, new_widget, get_volume_interface.
  master_red; split_master; split; reflexivity.
Qed.

Lemma startup_slider (d : Device) : slider_level (startup d) = cached_level (startup d).
Proof.
  unfold startup, load, new_widget, get_volume_interface.
  master_red; split_master; reflexivity.
Qed.

Ltac solve_slider :=
  unfold slider_follows in *;
  cbn [slider_level cached_level self volume_slider_value volume_scalar] in *;
  first [assumption | apply eq_sym; assumption | solve_number].

Lemma run_keeps_slider (c : Command) (a : App) :
  command_defined c -> slider_follows a -> slider_follows (exec (run c) a).
Proof.
  assert (Hkey : forall change, slider_follows a ->
                   slider_follows (exec (update_volume_from_key change) a)).
  { intros change. destruct_app a; intros Hb; master_red; split_master; solve_slider. }
  destruct c as [value|keycode codepoint| |]; cbn [command_defined]; intros Hc.
  - destruct_app a; intros Hb; master_red; split_master; solve_slider.
  - destruct (key_cases keycode codepoint a) as [E|[E|[E|E]]]; rewrite E; auto.
    destruct_app a; intros Hb; master_red; split_master; solve_slider.
  - destruct_app a; intros Hb; master_red; split_master; solve_slider.
  - destruct_app a; intros Hb; master_red; split_master; solve_slider.
Qed.

End FollowerFacts.

(** A value that is not a number never stops the chain of observers: the
    handler runs out of nested calls and raises. *)
Lemma gui_at_raises (depth : nat) (value : float) (a : MasterAudio.App) :
  Py.eq value value = false ->
  fst (MasterAudio.update_volume_from_gui_at depth value a)
  = Raise (Exception "maximum recursion depth exceeded").
Proof.
  intros Hv. revert a. induction depth as [|depth IH]; intros a; [reflexivity|].
  destruct_app a; cbn [MasterAudio.update_volume_from_gui_at]; master_red;
    split_more_with ltac:(master_red) ltac:(idtac; rewrite (not_number_eq _ value Hv));
    match goal with
    | |- context [MasterAudio.update_volume_from_gui_at depth value ?s] =>
        specialize (IH s);
        destruct (MasterAudio.update_volume_from_gui_at depth value s) as [[[]|e] s'];
        cbn [fst] in IH; [discriminate IH | injection IH as ->; reflexivity]
    end.
Qed.

(** X23: the mute button shows the cached flag once the flag has changed.
    After [toggle_mute] the button reads "Unmute (Muted)" on red when the
    cached flag is set and "Mute (M)" on green when it is clear, and every
    later command keeps button and flag in step.  At start-up the button is
    built reading "Mute (M)" on Kivy's default colour whatever the flag
    read from the device is. *)
Theorem mute_button_follows_flag :
  (forall a, button_follows (exec MasterAudio.toggle_mute a)) /\
  (forall c a,
      command_defined c -> button_follows a -> button_follows (exec (MasterAudio.run c) a)) /\
  (forall d,
      MasterAudio.mute_button_text (MasterAudio.self (MasterAudio.startup d)) = "Mute (M)" /\
      MasterAudio.mute_button_background_color (MasterAudio.self (MasterAudio.startup d))
      = (1, 1, 1, 1)%float).
Proof.
  split; [exact toggle_sets_button|]. split; [exact run_keeps_button | exact startup_button].
Qed.

(** A device that is muted when the program starts: the flag is set but the
    button still offers to mute; after the mute button was pressed and a
    poll took the device's flag over again, the button shows the flag. *)
Lemma mute_button_follows_flag_witness :
  let a := MasterAudio.startup (endpoint 0.5%float true) in
  let b := exec (MasterAudio.run MasterAudio.Tick)
             (external (endpoint 0.5%float true) (exec MasterAudio.toggle_mute a)) in
  cached_mute a = true /\
  MasterAudio.mute_button_text (MasterAudio.self a) = "Mute (M)" /\
  cached_mute b = true /\
  MasterAudio.mute_button_text (MasterAudio.self b) = "Unmute (Muted)".
Proof.
  cbv zeta.
  pose proof mute_button_follows_flag as (Ht & Hr & _).
  split; [reflexivity|]. split; [reflexivity|]. split; [reflexivity|].
  exact (proj1 (Hr MasterAudio.Tick
                  (external (endpoint 0.5%float true)
                     (exec MasterAudio.toggle_mute
                        (MasterAudio.startup (endpoint 0.5%float true))))
                  I (Ht (MasterAudio.startup (endpoint 0.5%float true))))).
Defined.

(** X24: the slider shows the stored level.  The slider is built with the
    stored level as its value, and every command in which the slider carries
    a number leaves the slider's value equal to the stored level: a key step
    or a poll that changes the level moves the slider, a slider event
    changes the level. *)
Theorem slider_follows_level :
  (forall d, slider_level (MasterAudio.startup d) = cached_level (MasterAudio.startup d)) /\
  (forall c a,
      command_defined c -> slider_follows a -> slider_follows (exec (MasterAudio.run c) a)).
Proof. split; [exact startup_slider | exact run_keeps_slider]. Qed.

Lemma slider_follows_level_witness :
  let a := exec (MasterAudio.run (MasterAudio.Key 273 None))
             (MasterAudio.startup (endpoint 0.5%float false)) in
  slider_follows a /\ slider_level a = 0.55%float.
Proof.
  cbv zeta. split; [|reflexivity].
  apply (proj2 slider_follows_level (MasterAudio.Key 273 None)
           (MasterAudio.startup (endpoint 0.5%float false)) I).
  reflexivity.
Defined.

(** X25: a slider value that is not a number is fatal.  The value never
    compares equal to the stored one, so the slider's handler and the
    observer of [volume_scalar] keep calling each other until the
    interpreter raises; the exception escapes the handler and a slider event
    that carries the value. *)
Theorem not_a_number_is_fatal (value : float) (a : MasterAudio.App) :
  Py.eq value value = false ->
  eval (MasterAudio.update_volume_from_gui value) a = None /\
  eval (MasterAudio.run (MasterAudio.Slider value)) a = None.
Proof.
  intros Hv.
  pose proof (fun s => gui_at_raises MasterAudio.recursion_limit value s Hv) as Hr.
  fold (MasterAudio.update_volume_from_gui value) in Hr.
  split.
  - unfold eval. rewrite Hr. reflexivity.
  - destruct_app a; master_red; rewrite (not_number_eq _ value Hv); master_red;
      match goal with
      | |- context [MasterAudio.update_volume_from_gui value ?s] =>
          specialize (Hr s);
          destruct (MasterAudio.update_volume_from_gui value s) as [[[]|e] s'];
          cbn [fst] in Hr; [discriminate Hr | reflexivity]
      end.
Qed.

Lemma not_a_number_is_fatal_witness :
  eval (MasterAudio.run (MasterAudio.Slider nan))
    (MasterAudio.startup (endpoint 0.5%float false)) = None.
Proof.
  exact (proj2 (not_a_number_is_fatal nan
                  (MasterAudio.startup (endpoint 0.5%float false)) eq_refl)).
Defined.
